(** * kitten_tts_bridge.py: a shallow embedding and its properties

    The script [scripts/kitten_tts_bridge.py] is a command-line bridge to
    a text-to-speech model.  It has three parts, embedded here in the
    order of the source:

    - the set-up block run at import time, which installs replacement
      [phonemizer] modules in [sys.modules] whose back end calls the
      bundled eSpeak executable and falls back on a character table;
    - the class [CarelessKittenBridge] ([generate_audio], [list_voices],
      [_success], [_error]);
    - [main], which parses the command line and sets the exit status.

    Python values are modelled as follows.  A [str] is a list of Unicode
    code points, a [float] is an IEEE 754 value ([spec_float]), a [dict]
    literal is an association list in insertion order, [sys.modules] and
    the file system are finite maps.  Everything the script prints or
    calls goes through one state record, [World], threaded by a small
    monad with exceptions, [sys.exit] and blocking. *)

From Stdlib Require Import ZArith NArith List String Ascii Bool Lia.
From Stdlib Require Import Floats.SpecFloat.
From stdpp Require Import gmap strings list.

Import ListNotations.
Local Open Scope Z_scope.

(** ** Python strings *)

Module PyStr.

(** A Python [str]: a sequence of code points. *)
Abbreviation codepoint := N (only parsing).
Abbreviation pystr := (list N) (only parsing).

(** Source literals are UTF-8 text; [py] decodes one into code points
    (sequences of one to four bytes). *)
Definition byte_val (a : ascii) : N := N_of_ascii a.

Definition cont (b : N) : N := N.land b 63.

Fixpoint utf8_decode (bs : list N) : pystr :=
  match bs with
  | [] => []
  | b0 :: r0 =>
    if (b0 <? 128)%N then b0 :: utf8_decode r0
    else if (b0 <? 224)%N then
      match r0 with
      | b1 :: r1 => (N.land b0 31 * 64 + cont b1)%N :: utf8_decode r1
      | _ => [b0]
      end
    else if (b0 <? 240)%N then
      match r0 with
      | b1 :: b2 :: r2 =>
        (N.land b0 15 * 4096 + cont b1 * 64 + cont b2)%N :: utf8_decode r2
      | _ => [b0]
      end
    else
      match r0 with
      | b1 :: b2 :: b3 :: r3 =>
        (N.land b0 7 * 262144 + cont b1 * 4096 + cont b2 * 64 + cont b3)%N
          :: utf8_decode r3
      | _ => [b0]
      end
  end.

Definition py (s : string) : pystr :=
  utf8_decode (List.map byte_val (list_ascii_of_string s)).

Definition pystr_eqb (a b : pystr) : bool := bool_decide (a = b).

(** [s.startswith(p)] *)
Fixpoint startswith (p s : pystr) : bool :=
  match p, s with
  | [], _ => true
  | _ :: _, [] => false
  | a :: p', b :: s' => (a =? b)%N && startswith p' s'
  end.

(** [old in s]: [old] occurs as a contiguous run of [s]. *)
Fixpoint contains (old s : pystr) : bool :=
  startswith old s ||
  match s with
  | [] => false
  | _ :: s' => contains old s'
  end.

(** [s.replace(old, new)]: a left-to-right scan over non-overlapping
    occurrences.  [skip] counts the characters of a matched occurrence
    that are still to be passed over. *)
Fixpoint replace_from (old new : pystr) (skip : nat) (s : pystr) : pystr :=
  match s with
  | [] => []
  | c :: s' =>
    match skip with
    | S k => replace_from old new k s'
    | O =>
      if startswith old s
      then new ++ replace_from old new (length old - 1) s'
      else c :: replace_from old new 0 s'
    end
  end.

(** With an empty [old], Python puts [new] before every character and at
    the end. *)
Definition replace (old new s : pystr) : pystr :=
  match old with
  | [] => new ++ concat (List.map (fun c => c :: new) s)
  | _ :: _ => replace_from old new 0 s
  end.

(** [c.isspace()] for a code point, as CPython's [_PyUnicode_IsWhitespace]. *)
Definition isspace (c : codepoint) : bool :=
  ((9 <=? c) && (c <=? 13) || (28 <=? c) && (c <=? 32)
   || (c =? 133) || (c =? 160) || (c =? 5760)
   || (8192 <=? c) && (c <=? 8202)
   || (c =? 8232) || (c =? 8233) || (c =? 8239) || (c =? 8287)
   || (c =? 12288))%N.

(** [s.lstrip()], [s.rstrip()], [s.strip()] *)
Fixpoint lstrip (s : pystr) : pystr :=
  match s with
  | [] => []
  | c :: s' => if isspace c then lstrip s' else s
  end.

Definition rstrip (s : pystr) : pystr := rev (lstrip (rev s)).
Definition strip (s : pystr) : pystr := rstrip (lstrip s).

(** [s.split()]: the maximal runs of non-space characters.  [cur] is the
    run being read, reversed. *)
Fixpoint split_from (cur : pystr) (s : pystr) : list pystr :=
  match s with
  | [] => match cur with [] => [] | _ => [rev cur] end
  | c :: s' =>
    if isspace c
    then match cur with
         | [] => split_from [] s'
         | _ => rev cur :: split_from [] s'
         end
    else split_from (c :: cur) s'
  end.

Definition split (s : pystr) : list pystr := split_from [] s.

(** [sep.join(parts)] *)
Fixpoint join (sep : pystr) (parts : list pystr) : pystr :=
  match parts with
  | [] => []
  | [p] => p
  | p :: rest => p ++ sep ++ join sep rest
  end.

(** Truth value of a [str]: non-empty. *)
Definition truthy (s : pystr) : bool :=
  match s with [] => false | _ => true end.

(** [len(s)] *)
Definition len (s : pystr) : Z := Z.of_nat (length s).

(** ASCII lower-casing, the part of [str.lower] that does not depend on
    the Unicode tables. *)
Definition ascii_lower_char (c : codepoint) : codepoint :=
  if ((65 <=? c) && (c <=? 90))%N then (c + 32)%N else c.

Definition ascii_lower (s : pystr) : pystr := List.map ascii_lower_char s.

End PyStr.

Export PyStr.

(** ** Values the script prints and the state it runs in *)

Module Runtime.

(** Exceptions, by the classes the script's handlers tell apart, with
    the text [str(e)] that the handlers print. *)
Inductive exn_class := ImportError | TimeoutExpired | OtherException.

Record exn := Exn { exn_cls : exn_class; exn_str : pystr }.

(** What [json.dumps] is given.  A [dict] keeps its insertion order. *)
#[local] Unset Elimination Schemes.
Inductive json :=
  | JBool (b : bool)
  | JInt (z : Z)
  | JFloat (f : spec_float)
  | JStr (s : pystr)
  | JList (l : list json)
  | JObj (fields : list (pystr * json)).
#[local] Set Elimination Schemes.

(** [d[k] = v] on a dict in insertion order: an existing key keeps its
    place. *)
Fixpoint dict_set (k : pystr) (v : json) (d : list (pystr * json))
  : list (pystr * json) :=
  match d with
  | [] => [(k, v)]
  | (k', v') :: d' =>
    if pystr_eqb k k' then (k, v) :: d' else (k', v') :: dict_set k v d'
  end.

(** [{**a, **b}] *)
Definition dict_merge (a b : list (pystr * json)) : list (pystr * json) :=
  fold_left (fun d kv => dict_set (fst kv) (snd kv) d) b a.

Fixpoint dict_get (k : pystr) (d : list (pystr * json)) : option json :=
  match d with
  | [] => None
  | (k', v) :: d' => if pystr_eqb k k' then Some v else dict_get k d'
  end.

(** One [print] on a stream: a JSON document, or the plain text that
    [argparse] writes. *)
Inductive line :=
  | Json (j : json)
  | Text (s : pystr).

(** Arguments of one [subprocess.run] call. *)
Record RunArgs := {
  ra_cmd : list pystr;
  ra_capture_output : bool;
  ra_text : bool;
  ra_timeout : option N;      (* milliseconds *)
  ra_encoding : pystr
}.

Record CompletedProcess := { returncode : Z; proc_stdout : pystr }.

(** Arguments of one [model.generate_to_file] call. *)
Record GenCall := {
  gc_text : pystr;
  gc_output_path : pystr;
  gc_voice : pystr;
  gc_speed : spec_float
}.

(** The state of a run: what has been printed, the files that exist
    (path to size), the time spent waiting for child processes, and the
    calls made to the operating system and to the model. *)
Record World := {
  w_stdout : list line;
  w_stderr : list line;
  w_files : gmap pystr N;
  w_clock : N;
  w_runs : list RunArgs;
  w_generated : list GenCall
}.

Definition print_stdout (l : line) (w : World) : World :=
  {| w_stdout := w_stdout w ++ [l]; w_stderr := w_stderr w;
     w_files := w_files w; w_clock := w_clock w; w_runs := w_runs w;
     w_generated := w_generated w |}.

Definition print_stderr (l : line) (w : World) : World :=
  {| w_stdout := w_stdout w; w_stderr := w_stderr w ++ [l];
     w_files := w_files w; w_clock := w_clock w; w_runs := w_runs w;
     w_generated := w_generated w |}.

Definition advance (ms : N) (w : World) : World :=
  {| w_stdout := w_stdout w; w_stderr := w_stderr w;
     w_files := w_files w; w_clock := (w_clock w + ms)%N;
     w_runs := w_runs w; w_generated := w_generated w |}.

Definition log_run (a : RunArgs) (w : World) : World :=
  {| w_stdout := w_stdout w; w_stderr := w_stderr w;
     w_files := w_files w; w_clock := w_clock w;
     w_runs := w_runs w ++ [a]; w_generated := w_generated w |}.

Definition log_generate (c : GenCall) (fs : gmap pystr N) (w : World) : World :=
  {| w_stdout := w_stdout w; w_stderr := w_stderr w;
     w_files := fs; w_clock := w_clock w;
     w_runs := w_runs w; w_generated := w_generated w ++ [c] |}.

(** How a computation ends: with a value, with an exception, by
    [sys.exit], or never (blocked on a child process). *)
Inductive result (A : Type) :=
  | Ret (a : A)
  | Raise (e : exn)
  | Exit (code : Z)
  | Block.

Arguments Ret {A} a.
Arguments Raise {A} e.
Arguments Exit {A} code.
Arguments Block {A}.

Definition M (A : Type) : Type := World -> result A * World.

Definition ret {A} (a : A) : M A := fun w => (Ret a, w).

Definition bind {A B} (m : M A) (k : A -> M B) : M B :=
  fun w =>
    match m w with
    | (Ret a, w') => k a w'
    | (Raise e, w') => (Raise e, w')
    | (Exit c, w') => (Exit c, w')
    | (Block, w') => (Block, w')
    end.

Definition raise {A} (e : exn) : M A := fun w => (Raise e, w).

(** [sys.exit(code)] raises [SystemExit], which [except Exception] does
    not catch. *)
Definition sys_exit {A} (code : Z) : M A := fun w => (Exit code, w).

(** [try: body  except Exception as e: handler(e)] *)
Definition try_except {A} (body : M A) (handler : exn -> M A) : M A :=
  fun w =>
    match body w with
    | (Raise e, w') => handler e w'
    | other => other
    end.

Definition print_out (l : line) : M unit := fun w => (Ret tt, print_stdout l w).
Definition print_err (l : line) : M unit := fun w => (Ret tt, print_stderr l w).

(** [os.path.exists(p)] and [Path(p).exists()] *)
Definition path_exists (p : pystr) : M bool :=
  fun w => (Ret (bool_decide (is_Some (w_files w !! p))), w).

(** [os.path.getsize(p)]: raises [OSError] for a missing file. *)
Definition path_getsize (p : pystr) : M Z :=
  fun w =>
    match w_files w !! p with
    | Some n => (Ret (Z.of_N n), w)
    | None => (Raise (Exn OtherException (py "[Errno 2] No such file or directory")), w)
    end.

End Runtime.

Export Runtime.

Declare Scope py_scope.
Delimit Scope py_scope with py.
Notation "x <- m ;; k" := (bind m (fun x => k))
  (at level 60, m at next level, right associativity) : py_scope.
Notation "m ;;; k" := (bind m (fun _ => k))
  (at level 60, right associativity) : py_scope.
Local Open Scope py_scope.

(** ** What the script does not define *)

(** A child process started by [subprocess.run]: it ends after some time
    with a status and an output, never ends, or cannot be run at all
    (missing executable, undecodable output). *)
Inductive Child :=
  | Finishes (ms : N) (status : Z) (out : pystr)
  | Hangs
  | Fails (e : exn).

(** Objects found in [sys.modules] and in module attributes. *)
Inductive BackendClass := RealEspeakBackend | PatchedEspeakBackendClass.

#[local] Unset Elimination Schemes.
Inductive pyobj :=
  | Module (name : string) (attrs : list (string * pyobj))
  | Backend (c : BackendClass)
  | Object (name : string).
#[local] Set Elimination Schemes.

(** What [argparse] complains about before it exits. *)
Inductive ArgError :=
  | AmbiguousOption (arg_string : pystr) (matches : list pystr)
  | ExpectedOneArgument (option_string : pystr)
  | InvalidValue (option_string value : pystr)
  | IgnoredExplicitArgument (option_string explicit_arg : pystr)
  | UnrecognizedArguments (extras : list pystr).

(** The interpreter, the installation and the packages around the
    script.  Nothing below assumes anything about these fields; a child
    process is determined by its command line. *)
Record Env := {
  (* built-ins *)
  str_lower : pystr -> pystr;                   (* str.lower *)
  float_of_str : pystr -> option spec_float;    (* float(s), None: ValueError *)
  float_str : spec_float -> pystr;              (* format(x, '') *)
  isdecimal : codepoint -> bool;                (* regex class \d *)
  (* argparse's formatted texts *)
  format_usage : ArgError -> pystr;             (* usage and error message *)
  format_help : pystr;
  (* the installation directory *)
  espeak_exe : pystr;                           (* str(espeak_exe) *)
  espeak_data : pystr;                          (* str(espeak_data) *)
  (* the operating system *)
  child : list pystr -> Child;
  (* installed packages *)
  installed : string -> option pyobj;
  import_kittentts : option exn;                (* from kittentts import KittenTTS *)
  kitten_init : pystr -> option exn;            (* KittenTTS(name) *)
  generate_to_file : GenCall -> gmap pystr N -> option exn * gmap pystr N;
  real_phonemize : pystr -> option pystr        (* phonemizer's own back end *)
}.

Definition seconds (n : N) : N := (n * 1000)%N.

(** [subprocess.run(cmd, ..., timeout=t)]: waits for the child, at most
    [t]; when the time is up the child is killed and [TimeoutExpired] is
    raised.  Without a timeout a child that never ends blocks the caller
    for ever. *)
Definition subprocess_run (E : Env) (a : RunArgs) : M CompletedProcess :=
  fun w =>
    let w1 := log_run a w in
    match child E (ra_cmd a), ra_timeout a with
    | Fails e, _ => (Raise e, w1)
    | Finishes d rc out, None =>
      (Ret {| returncode := rc; proc_stdout := out |}, advance d w1)
    | Finishes d rc out, Some t =>
      if (d <=? t)%N
      then (Ret {| returncode := rc; proc_stdout := out |}, advance d w1)
      else (Raise (Exn TimeoutExpired (py "timed out")), advance t w1)
    | Hangs, Some t => (Raise (Exn TimeoutExpired (py "timed out")), advance t w1)
    | Hangs, None => (Block, w1)
    end.

(** ** The set-up block (lines 14-177) *)

(** The first part of the block (lines 21-43) sets environment variables
    and filters [sys.path] and [PATH].  The script reads none of them
    again: they decide which executable a command line starts and which
    packages an import finds, which is what [child] and [installed]
    stand for.  The part is embedded on its own, as a function on the
    variables and the search path of the process. *)

(** *** The eSpeak environment (lines 21-43) *)

Module Configure.

(** [s.split(sep)] for a separator of one character, as [os.pathsep]
    is ([':'] or [';']).  [cur] is the part being read, reversed. *)
Fixpoint split_on_from (sep : N) (cur : pystr) (s : pystr) : list pystr :=
  match s with
  | [] => [rev cur]
  | c :: s' =>
    if (c =? sep)%N
    then rev cur :: split_on_from sep [] s'
    else split_on_from sep (c :: cur) s'
  end.

Definition split_on (sep : N) (s : pystr) : list pystr := split_on_from sep [] s.

(** The condition of the comprehension over [sys.path]:
    [and] binds tighter than [or]. *)
Definition keep_sys_path (p : pystr) : bool :=
  negb (contains (py "AppData") p) && negb (contains (py "site-packages") p)
  || contains (py "Lib\site-packages") p.

(** The condition of the comprehension over the parts of [PATH]. *)
Definition keep_path_part (p : pystr) : bool :=
  negb (contains (py "eSpeak") p) && negb (contains (py "espeak") p).

(** What the block changes: [os.environ] and [sys.path]. *)
Record Process := {
  environ : gmap string pystr;
  sys_path : list pystr
}.

(** [os.environ.get(key, default)] *)
Definition environ_get (environ : gmap string pystr) (key : string)
    (default : pystr) : pystr :=
  match environ !! key with
  | Some v => v
  | None => default
  end.

(** Lines 21-43.  [espeak_dir] is [str(espeak_exe.parent)], [pathsep]
    is [os.pathsep], [files] says which paths exist. *)
Definition configure_espeak (E : Env) (espeak_dir : pystr) (pathsep : N)
    (files : gmap pystr N) (p : Process) : Process :=
  if bool_decide (is_Some (files !! espeak_exe E)) then
    let data_exists := bool_decide (is_Some (files !! espeak_data E)) in
    let environ := <["ESPEAK_EXE" := espeak_exe E]> (environ p) in
    let environ :=
      if data_exists then <["ESPEAK_DATA_PATH" := espeak_data E]> environ
      else environ in
    let filtered_paths := List.filter keep_sys_path (sys_path p) in
    let current_path := environ_get environ "PATH" [] in
    let path_parts := split_on pathsep current_path in
    let filtered_path := List.filter keep_path_part path_parts in
    let environ :=
      <["PATH" := espeak_dir ++ [pathsep] ++ join [pathsep] filtered_path]>
        environ in
    let environ := <["PHONEMIZER_ESPEAK_EXECUTABLE" := espeak_exe E]> environ in
    let environ :=
      if data_exists then <["PHONEMIZER_ESPEAK_PATH" := espeak_data E]> environ
      else environ in
    {| environ := environ; sys_path := filtered_paths |}
  else p.

(** The entries of the new [PATH]: the parts that were kept, or one
    empty entry when none was. *)
Definition kept_parts (pathsep : N) (current_path : pystr) : list pystr :=
  match List.filter keep_path_part (split_on pathsep current_path) with
  | [] => [[]]
  | parts => parts
  end.

(** The five variables the block may set. *)
Definition espeak_variables : list string :=
  ["ESPEAK_EXE"; "ESPEAK_DATA_PATH"; "PATH";
   "PHONEMIZER_ESPEAK_EXECUTABLE"; "PHONEMIZER_ESPEAK_PATH"].

End Configure.

Export Configure.

Module Setup.

(** *** PatchedEspeakWrapper *)

Record PatchedEspeakWrapper := { data_path : option pystr }.

(** [set_data_path] *)
Definition set_data_path (path : pystr) (cls : PatchedEspeakWrapper)
  : PatchedEspeakWrapper :=
  {| data_path := Some path |}.

(** [PatchedEspeakWrapper.phonemize]: the text as it is. *)
Definition wrapper_phonemize (text : pystr) : pystr := text.

(** *** PatchedEspeakBackend *)

Record PatchedEspeakBackend := {
  language : pystr;
  preserve_punctuation : bool;
  with_stress : bool;
  tie : bool;
  language_switch : pystr;
  words_mismatch : pystr;
  self_espeak_exe : pystr
}.

(** [__init__] with the keyword defaults of the source. *)
Definition init_backend (E : Env) (language : pystr)
    (preserve_punctuation with_stress tie : bool)
    (language_switch words_mismatch : pystr) : M PatchedEspeakBackend :=
  exe_exists <- path_exists (espeak_exe E) ;;
  ret {| language := language;
         preserve_punctuation := preserve_punctuation;
         with_stress := with_stress;
         tie := tie;
         language_switch := language_switch;
         words_mismatch := words_mismatch;
         self_espeak_exe := if exe_exists then espeak_exe E else py "espeak" |}.

Definition default_backend (E : Env) : M PatchedEspeakBackend :=
  init_backend E (py "en-us") false false false (py "keep-flags") (py "ignore").

(** [basic_map], in the order of the dict literal. *)
Definition basic_map : list (pystr * pystr) :=
  [ (py "a", py "æ"); (py "e", py "ɛ"); (py "i", py "ɪ"); (py "o", py "ɔ");
    (py "u", py "ʊ");
    (py "th", py "θ"); (py "sh", py "ʃ"); (py "ch", py "ʧ"); (py "ng", py "ŋ") ].

(** [_text_to_basic_ipa]: the loop over [basic_map.items()]. *)
Definition _text_to_basic_ipa (E : Env) (text : pystr) : pystr :=
  fold_left (fun result '(eng, ipa) => replace eng ipa result)
            basic_map (str_lower E text).

(** Where a phoneme string came from.  The script itself produces only
    the last two. *)
Inductive Tier := RealPhonemizer | BundledEspeak | CharSubstitution.

Definition espeak_cmd (self : PatchedEspeakBackend) (E : Env)
    (data_exists : bool) (text : pystr) : list pystr :=
  ([self_espeak_exe self; py "-q"; py "--ipa"]
   ++ (if data_exists then [py "--path"; espeak_data E] else []))
  ++ [text].

Definition espeak_args (cmd : list pystr) : RunArgs :=
  {| ra_cmd := cmd; ra_capture_output := true; ra_text := true;
     ra_timeout := Some (seconds 30); ra_encoding := py "utf-8" |}.

(** The body of the [for] loop of [phonemize]: the string appended to
    [results], tagged with the branch that made it. *)
Definition phonemize_text (E : Env) (self : PatchedEspeakBackend)
    (text : pystr) : M (Tier * pystr) :=
  data_exists <- path_exists (espeak_data E) ;;
  let cmd := espeak_cmd self E data_exists text in
  try_except
    (result <- subprocess_run E (espeak_args cmd) ;;
     if (returncode result =? 0) && truthy (strip (proc_stdout result))
     then
       let phonemes := strip (proc_stdout result) in
       let phonemes := join (py " ") (split phonemes) in
       ret (BundledEspeak, phonemes)
     else
       let basic_phonemes := _text_to_basic_ipa E text in
       ret (CharSubstitution, basic_phonemes))
    (fun e =>
       let basic_phonemes := _text_to_basic_ipa E text in
       ret (CharSubstitution, basic_phonemes)).

Fixpoint phonemize_loop (E : Env) (self : PatchedEspeakBackend)
    (results : list (Tier * pystr)) (text_list : list pystr)
  : M (list (Tier * pystr)) :=
  match text_list with
  | [] => ret results
  | text :: rest =>
    r <- phonemize_text E self text ;;
    phonemize_loop E self (results ++ [r]) rest
  end.

(** The first argument of [phonemize]: one [str] or a list of them. *)
Inductive TextArg := OneStr (s : pystr) | StrList (l : list pystr).

Definition as_text_list (a : TextArg) : list pystr :=
  match a with OneStr s => [s] | StrList l => l end.

Definition phonemize_tagged (E : Env) (self : PatchedEspeakBackend)
    (text_list : TextArg) : M (list (Tier * pystr)) :=
  phonemize_loop E self [] (as_text_list text_list).

(** [PatchedEspeakBackend.phonemize] *)
Definition phonemize (E : Env) (self : PatchedEspeakBackend)
    (text_list : TextArg) : M (list pystr) :=
  tagged <- phonemize_tagged E self text_list ;;
  ret (List.map snd tagged).

End Setup.

Export Setup.

(** *** The replacement modules (lines 129-161) *)

Module Patches.

Definition en_module : pyobj :=
  Module "misaki.en"
    [("clean_text", Object "lambda text: text.strip()");
     ("normalize_text", Object "lambda text: text.lower()");
     ("process_text", Object "lambda text: text")].

Definition espeak_module : pyobj :=
  Module "misaki.espeak" [("EspeakWrapper", Object "PatchedEspeakWrapper")].

Definition misaki_module : pyobj :=
  Module "misaki" [("en", en_module); ("espeak", espeak_module)].

Definition phonemizer_backend_module : pyobj :=
  Module "phonemizer.backend"
    [("EspeakBackend", Backend PatchedEspeakBackendClass)].

Definition phonemizer_backend_espeak_module : pyobj :=
  Module "phonemizer.backend.espeak"
    [("EspeakBackend", Backend PatchedEspeakBackendClass)].

Definition phonemizer_module : pyobj :=
  Module "phonemizer" [("backend", phonemizer_backend_module)].

(** The six assignments [sys.modules[...] = ...] and the seventh, of the
    class itself, in the order of the source. *)
Definition install_patches (sys_modules : gmap string pyobj)
  : gmap string pyobj :=
  let m := <["misaki" := misaki_module]> sys_modules in
  let m := <["misaki.en" := en_module]> m in
  let m := <["misaki.espeak" := espeak_module]> m in
  let m := <["phonemizer" := phonemizer_module]> m in
  let m := <["phonemizer.backend" := phonemizer_backend_module]> m in
  let m := <["phonemizer.backend.espeak" := phonemizer_backend_espeak_module]> m in
  <["phonemizer.backend.EspeakBackend" := Backend PatchedEspeakBackendClass]> m.

(** [import name]: [sys.modules] first, then the installed packages. *)
Definition import_module (E : Env) (sys_modules : gmap string pyobj)
    (name : string) : option pyobj :=
  match sys_modules !! name with
  | Some m => Some m
  | None => installed E name
  end.

Fixpoint assoc (name : string) (attrs : list (string * pyobj)) : option pyobj :=
  match attrs with
  | [] => None
  | (n, v) :: rest => if String.eqb name n then Some v else assoc name rest
  end.

Definition getattr (o : pyobj) (name : string) : option pyobj :=
  match o with
  | Module _ attrs => assoc name attrs
  | _ => None
  end.

(** [import phonemizer; phonemizer.backend.EspeakBackend] *)
Definition backend_by_attribute (E : Env) (sys_modules : gmap string pyobj)
  : option pyobj :=
  match import_module E sys_modules "phonemizer" with
  | Some p =>
    match getattr p "backend" with
    | Some b => getattr b "EspeakBackend"
    | None => None
    end
  | None => None
  end.

(** [from phonemizer.backend import EspeakBackend] and the same from
    [phonemizer.backend.espeak] *)
Definition backend_by_from (E : Env) (sys_modules : gmap string pyobj)
    (module : string) : option pyobj :=
  match import_module E sys_modules module with
  | Some b => getattr b "EspeakBackend"
  | None => None
  end.

End Patches.

Export Patches.

(** *** The block as a whole and its two handlers *)

Definition error_report (message : pystr) : json :=
  JObj [(py "success", JBool false); (py "error", JStr message)].

Definition setup (E : Env) (sys_modules : gmap string pyobj)
  : M (gmap string pyobj) :=
  try_except
    (let sys_modules := install_patches sys_modules in
     match import_kittentts E with
     | None => ret sys_modules
     | Some e => raise e
     end)
    (fun e =>
       match exn_cls e with
       | ImportError =>
         print_err (Json (error_report
           (py "KittenTTS setup failed: " ++ exn_str e
            ++ py ". Ensure all dependencies are installed."))) ;;;
         sys_exit 1
       | _ =>
         print_err (Json (error_report
           (py "Unexpected error during setup: " ++ exn_str e))) ;;;
         sys_exit 1
       end).

(** ** CarelessKittenBridge (lines 179-276) *)

Module Bridge.

Record CarelessKittenBridge := {
  model : option pystr;          (* the loaded model, by its name *)
  supported_voices : list pystr
}.

(** [__init__] *)
Definition new_bridge : CarelessKittenBridge :=
  {| model := None;
     supported_voices :=
       [ py "expr-voice-2-m"; py "expr-voice-2-f";
         py "expr-voice-3-m"; py "expr-voice-3-f";
         py "expr-voice-4-m"; py "expr-voice-4-f";
         py "expr-voice-5-m"; py "expr-voice-5-f" ] |}.

(** [_success] *)
Definition _success (data : list (pystr * json)) : M unit :=
  let result := dict_merge [(py "success", JBool true)] data in
  print_out (Json (JObj result)).

(** [_error] *)
Definition _error (message : pystr) : M unit :=
  let result := [(py "success", JBool false); (py "error", JStr message)] in
  print_err (Json (JObj result)).

(** [KittenTTS(name)] *)
Definition KittenTTS (E : Env) (name : pystr) : M pystr :=
  match kitten_init E name with
  | None => ret name
  | Some e => raise e
  end.

(** [initialize_model]; the second component is [self] afterwards. *)
Definition initialize_model (E : Env) (self : CarelessKittenBridge)
  : M (bool * CarelessKittenBridge) :=
  try_except
    (m <- KittenTTS E (py "KittenML/kitten-tts-nano-0.1") ;;
     ret (true, {| model := Some m;
                   supported_voices := supported_voices self |}))
    (fun e =>
       _error (py "Failed to initialize KittenTTS: " ++ exn_str e) ;;;
       ret (false, self)).

(** [voice in self.supported_voices] *)
Definition voice_in (voice : pystr) (voices : list pystr) : bool :=
  existsb (pystr_eqb voice) voices.

(** The constants 0.5, 1.0 and 2.0 as binary64 values. *)
Definition float_0_5 : spec_float := S754_finite false 4503599627370496 (-53).
Definition float_1_0 : spec_float := S754_finite false 4503599627370496 (-52).
Definition float_2_0 : spec_float := S754_finite false 4503599627370496 (-51).

(** [0.5 <= speed <= 2.0] *)
Definition speed_in_range (speed : spec_float) : bool :=
  SFleb float_0_5 speed && SFleb speed float_2_0.

(** [self.model.generate_to_file(...)] *)
Definition model_generate_to_file (E : Env) (c : GenCall) : M unit :=
  fun w =>
    let '(err, fs) := generate_to_file E c (w_files w) in
    match err with
    | None => (Ret tt, log_generate c fs w)
    | Some e => (Raise e, log_generate c fs w)
    end.

(** [generate_audio]; the second component is [self] afterwards. *)
Definition generate_audio (E : Env) (self : CarelessKittenBridge)
    (text voice : pystr) (speed : spec_float) (output_path : pystr)
  : M (bool * CarelessKittenBridge) :=
  init <- match model self with
          | None => initialize_model E self
          | Some _ => ret (true, self)
          end ;;
  let '(initialized, self) := init in
  if negb initialized then ret (false, self) else
  try_except
    (if negb (voice_in voice (supported_voices self)) then
       _error (py "Unsupported voice: " ++ voice ++ py ". Supported: "
               ++ join (py ", ") (supported_voices self)) ;;;
       ret (false, self)
     else if negb (speed_in_range speed) then
       _error (py "Speed must be between 0.5 and 2.0, got: "
               ++ float_str E speed) ;;;
       ret (false, self)
     else
       model_generate_to_file E
         {| gc_text := text; gc_output_path := output_path;
            gc_voice := voice; gc_speed := speed |} ;;;
       created <- path_exists output_path ;;
       if negb created then
         _error (py "Output file not created: " ++ output_path) ;;;
         ret (false, self)
       else
         file_size <- path_getsize output_path ;;
         if file_size =? 0 then
           _error (py "Output file is empty: " ++ output_path) ;;;
           ret (false, self)
         else
           _success [ (py "output_path", JStr output_path);
                      (py "file_size", JInt file_size);
                      (py "voice", JStr voice);
                      (py "speed", JFloat speed);
                      (py "text_length", JInt (len text)) ] ;;;
           ret (true, self))
    (fun e =>
       _error (py "TTS generation failed: " ++ exn_str e) ;;;
       ret (false, self)).

(** [voice_descriptions], in the order of the dict literal. *)
Definition voice_descriptions : list (pystr * pystr) :=
  [ (py "expr-voice-2-m", py "Male Voice #2 - Expressive");
    (py "expr-voice-2-f", py "Female Voice #2 - Expressive");
    (py "expr-voice-3-m", py "Male Voice #3 - Expressive");
    (py "expr-voice-3-f", py "Female Voice #3 - Expressive");
    (py "expr-voice-4-m", py "Male Voice #4 - Expressive");
    (py "expr-voice-4-f", py "Female Voice #4 - Expressive");
    (py "expr-voice-5-m", py "Male Voice #5 - Expressive");
    (py "expr-voice-5-f", py "Female Voice #5 - Expressive") ].

Definition voice_entry (item : pystr * pystr) : json :=
  let '(voice_id, desc) := item in
  JObj [(py "id", JStr voice_id); (py "description", JStr desc)].

(** [list_voices] *)
Definition list_voices (self : CarelessKittenBridge) : M unit :=
  let voices := List.map voice_entry voice_descriptions in
  _success [(py "voices", JList voices)].

End Bridge.

Export Bridge.

(** ** The command line (lines 278-299) *)

(** [argparse] as far as [main] uses it: a parser with optional
    arguments only, [store] actions with one value, one [store_true]
    flag and the help.  The definitions follow CPython's
    [_parse_optional], [_get_option_tuples] and [_parse_known_args].
    One case depends on the version: an explicit value ["--"], as in
    [--text=--], is kept as that string here, as CPython does since
    3.13; before, the value was dropped and an empty list stored. *)

Module Argparse.

(** The attributes of [args]. *)
Record Namespace := {
  args_text : option pystr;
  args_voice : pystr;
  args_speed : spec_float;
  args_output : option pystr;
  args_list_voices : bool
}.

Definition set_text (v : pystr) (ns : Namespace) : Namespace :=
  {| args_text := Some v; args_voice := args_voice ns;
     args_speed := args_speed ns; args_output := args_output ns;
     args_list_voices := args_list_voices ns |}.

Definition set_voice (v : pystr) (ns : Namespace) : Namespace :=
  {| args_text := args_text ns; args_voice := v;
     args_speed := args_speed ns; args_output := args_output ns;
     args_list_voices := args_list_voices ns |}.

Definition set_speed (v : spec_float) (ns : Namespace) : Namespace :=
  {| args_text := args_text ns; args_voice := args_voice ns;
     args_speed := v; args_output := args_output ns;
     args_list_voices := args_list_voices ns |}.

Definition set_output (v : pystr) (ns : Namespace) : Namespace :=
  {| args_text := args_text ns; args_voice := args_voice ns;
     args_speed := args_speed ns; args_output := Some v;
     args_list_voices := args_list_voices ns |}.

Definition set_list_voices (ns : Namespace) : Namespace :=
  {| args_text := args_text ns; args_voice := args_voice ns;
     args_speed := args_speed ns; args_output := args_output ns;
     args_list_voices := true |}.

(** An action of the parser: [store] converts its one argument with the
    option's [type] and sets the attribute, [store_true] sets a flag,
    [help] prints the help and exits. *)
Inductive Action :=
  | store (convert : pystr -> option (Namespace -> Namespace))
  | store_true (set : Namespace -> Namespace)
  | help.

Record Argument := {
  option_strings : list pystr;
  dest : string;
  action : Action
}.

(** [ArgumentParser(description=...)] registers [-h/--help]. *)
Definition ArgumentParser : list Argument :=
  [ {| option_strings := [py "-h"; py "--help"]; dest := "help";
       action := help |} ].

Definition add_argument (a : Argument) (parser : list Argument) : list Argument :=
  parser ++ [a].

(** The five [parser.add_argument] calls of [main]. *)
Definition main_arguments (E : Env) : list Argument :=
  [ {| option_strings := [py "--text"]; dest := "text";
       action := store (fun s => Some (set_text s)) |};
    {| option_strings := [py "--voice"]; dest := "voice";
       action := store (fun s => Some (set_voice s)) |};
    {| option_strings := [py "--speed"]; dest := "speed";
       action := store (fun s => option_map set_speed (float_of_str E s)) |};
    {| option_strings := [py "--output"]; dest := "output";
       action := store (fun s => Some (set_output s)) |};
    {| option_strings := [py "--list-voices"]; dest := "list_voices";
       action := store_true set_list_voices |} ].

Definition main_parser (E : Env) : list Argument :=
  fold_left (fun p a => add_argument a p) (main_arguments E) ArgumentParser.

(** The attribute values before any argument is read: the [default]
    of each call ([None] where none is given, [False] for a flag). *)
Definition defaults : Namespace :=
  {| args_text := None;
     args_voice := py "expr-voice-2-f";
     args_speed := float_1_0;
     args_output := None;
     args_list_voices := false |}.

(** [parser._option_string_actions], in insertion order. *)
Definition option_string_actions (parser : list Argument)
  : list (pystr * Argument) :=
  flat_map (fun a => List.map (fun o => (o, a)) (option_strings a)) parser.

Fixpoint lookup_option (o : pystr) (table : list (pystr * Argument))
  : option Argument :=
  match table with
  | [] => None
  | (o', a) :: rest => if pystr_eqb o o' then Some a else lookup_option o rest
  end.

(** [s.split('=', 1)] for an [s] that contains ['=']. *)
Fixpoint split_eq (s : pystr) : option (pystr * pystr) :=
  match s with
  | [] => None
  | c :: s' =>
    if (c =? 61)%N then Some ([], s')
    else match split_eq s' with
         | Some (a, b) => Some (c :: a, b)
         | None => None
         end
  end.

Definition is_dash (c : codepoint) : bool := (c =? 45)%N.

(** [_get_option_tuples] *)
Definition _get_option_tuples (parser : list Argument) (option_string : pystr)
  : list (Argument * pystr * option pystr) :=
  match option_string with
  | c0 :: c1 :: _ =>
    if is_dash c0 && is_dash c1 then
      let '(option_prefix, explicit_arg) :=
        match split_eq option_string with
        | Some (a, b) => (a, Some b)
        | None => (option_string, None)
        end in
      flat_map (fun '(o, a) =>
                  if startswith option_prefix o then [(a, o, explicit_arg)] else [])
               (option_string_actions parser)
    else if is_dash c0 && negb (is_dash c1) then
      let option_prefix := option_string in
      let short_option_prefix := firstn 2 option_string in
      let short_explicit_arg := skipn 2 option_string in
      flat_map (fun '(o, a) =>
                  if pystr_eqb o short_option_prefix
                  then [(a, o, Some short_explicit_arg)]
                  else if startswith option_prefix o then [(a, o, None)]
                  else [])
               (option_string_actions parser)
    else []
  | _ => []
  end.

(** The regular expression [^-\d+$|^-\d*\.\d+$]: [$] also matches before
    a final newline. *)
Definition all_decimal (E : Env) (s : pystr) : bool := forallb (isdecimal E) s.

Definition chomp (s : pystr) : pystr :=
  match rev s with
  | c :: r => if (c =? 10)%N then rev r else s
  | [] => s
  end.

Definition digits_dot_digits (E : Env) (s : pystr) : bool :=
  existsb (fun i =>
             all_decimal E (firstn i s) &&
             match skipn i s with
             | c :: d :: ds => (c =? 46)%N && all_decimal E (d :: ds)
             | _ => false
             end)
          (seq 0 (S (length s))).

Definition number_shape (E : Env) (s : pystr) : bool :=
  match s with
  | c :: d :: ds =>
    is_dash c && (all_decimal E (d :: ds) || digits_dot_digits E (d :: ds))
  | _ => false
  end.

Definition negative_number (E : Env) (s : pystr) : bool :=
  number_shape E s || number_shape E (chomp s).

(** How one command-line string is read: as an argument (['A']), as an
    option string (['O'], with the action if the parser has it and the
    value after ['=']), or as an error. *)
Inductive Parsed1 :=
  | IsArgument
  | IsOption (a : option Argument) (option_string : pystr)
             (explicit_arg : option pystr)
  | IsAmbiguous (matches : list pystr).

(** [_parse_optional] *)
Definition _parse_optional (E : Env) (parser : list Argument)
    (arg_string : pystr) : Parsed1 :=
  match arg_string with
  | [] => IsArgument
  | c0 :: tail =>
    if negb (is_dash c0) then IsArgument else
    match lookup_option arg_string (option_string_actions parser) with
    | Some a => IsOption (Some a) arg_string None
    | None =>
      match tail with
      | [] => IsArgument
      | _ :: _ =>
        let by_equals :=
          match split_eq arg_string with
          | Some (option_string, explicit_arg) =>
            match lookup_option option_string (option_string_actions parser) with
            | Some a => Some (IsOption (Some a) option_string (Some explicit_arg))
            | None => None
            end
          | None => None
          end in
        match by_equals with
        | Some r => r
        | None =>
          match _get_option_tuples parser arg_string with
          | [(a, o, e)] => IsOption (Some a) o e
          | _ :: _ :: _ as tuples =>
            IsAmbiguous (List.map (fun t => snd (fst t)) tuples)
          | [] =>
            if negative_number E arg_string then IsArgument
            else if existsb (N.eqb 32) arg_string then IsArgument
            else IsOption None arg_string None
          end
        end
      end
    end
  end.

(** The pattern of the command line: every string after the first
    ["--"] is an argument. *)
Inductive Pattern :=
  | A
  | Dashes
  | O (a : option Argument) (option_string : pystr) (explicit_arg : option pystr).

Fixpoint arg_strings_pattern (E : Env) (parser : list Argument)
    (arg_strings : list pystr) : ArgError + list (pystr * Pattern) :=
  match arg_strings with
  | [] => inr []
  | s :: rest =>
    if pystr_eqb s (py "--")
    then inr ((s, Dashes) :: List.map (fun a => (a, A)) rest)
    else
      match _parse_optional E parser s with
      | IsAmbiguous matches => inl (AmbiguousOption s matches)
      | IsArgument =>
        match arg_strings_pattern E parser rest with
        | inl err => inl err
        | inr ps => inr ((s, A) :: ps)
        end
      | IsOption a o e =>
        match arg_strings_pattern E parser rest with
        | inl err => inl err
        | inr ps => inr ((s, O a o e) :: ps)
        end
      end
  end.

Inductive ParseOutcome :=
  | Parsed (ns : Namespace)
  | ParseError (err : ArgError)
  | HelpExit.

(** [-h] followed by more letters: each must again be [-h]. *)
Definition only_h (s : pystr) : bool := forallb (N.eqb 104) s.

(** The loop of [_parse_known_args] for a parser without positional
    arguments, followed by the check of [parse_args] that nothing is
    left over. *)
Fixpoint consume (ns : Namespace) (extras : list pystr)
    (strings : list (pystr * Pattern)) : ParseOutcome :=
  match strings with
  | [] =>
    match extras with
    | [] => Parsed ns
    | _ :: _ => ParseError (UnrecognizedArguments extras)
    end
  | (s, A) :: rest => consume ns (extras ++ [s]) rest
  | (s, Dashes) :: rest => consume ns (extras ++ [s]) rest
  | (s, O None _ _) :: rest => consume ns (extras ++ [s]) rest
  | (s, O (Some a) option_string explicit_arg) :: rest =>
    match action a with
    | store convert =>
      match explicit_arg with
      | Some v =>
        match convert v with
        | Some set => consume (set ns) extras rest
        | None => ParseError (InvalidValue option_string v)
        end
      | None =>
        match rest with
        | (v, A) :: rest' =>
          match convert v with
          | Some set => consume (set ns) extras rest'
          | None => ParseError (InvalidValue option_string v)
          end
        | _ => ParseError (ExpectedOneArgument option_string)
        end
      end
    | store_true set =>
      match explicit_arg with
      | Some v => ParseError (IgnoredExplicitArgument option_string v)
      | None => consume (set ns) extras rest
      end
    | help =>
      match explicit_arg with
      | None => HelpExit
      | Some v =>
        if pystr_eqb option_string (py "-h") && truthy v && only_h v
        then HelpExit
        else ParseError (IgnoredExplicitArgument option_string v)
      end
    end
  end.

Definition parse_known (E : Env) (parser : list Argument)
    (arg_strings : list pystr) : ParseOutcome :=
  match arg_strings_pattern E parser arg_strings with
  | inl err => ParseError err
  | inr strings => consume defaults [] strings
  end.

(** [parser.parse_args()]: an error prints the usage on standard error
    and exits with status 2; [-h] prints the help and exits with 0. *)
Definition parse_args (E : Env) (parser : list Argument)
    (arg_strings : list pystr) : M Namespace :=
  match parse_known E parser arg_strings with
  | Parsed ns => ret ns
  | ParseError err => print_err (Text (format_usage E err)) ;;; sys_exit 2
  | HelpExit => print_out (Text (format_help E)) ;;; sys_exit 0
  end.

End Argparse.

Export Argparse.

(** [main] *)
Definition main (E : Env) (argv : list pystr) : M unit :=
  let parser := main_parser E in
  args <- parse_args E parser argv ;;
  let bridge := new_bridge in
  if args_list_voices args then
    list_voices bridge ;;;
    ret tt
  else
    let required_missing :=
      _error (py "Both --text and --output are required for TTS generation") ;;;
      sys_exit 1 in
    match args_text args, args_output args with
    | Some text, Some output =>
      if negb (truthy text) || negb (truthy output) then required_missing
      else
        r <- generate_audio E bridge text (args_voice args) (args_speed args) output ;;
        let success := fst r in
        sys_exit (if success then 0 else 1)
    | _, _ => required_missing
    end.

(** The script run as a program: the set-up block, then [main()]. *)
Definition script (E : Env) (sys_modules : gmap string pyobj)
    (argv : list pystr) : M unit :=
  setup E sys_modules ;;;
  main E argv.

(** The exit status of the process: 0 at the end of the script, the
    argument of [sys.exit], 1 for an exception nobody caught. *)
Definition exit_status {A} (r : result A) : option Z :=
  match r with
  | Ret _ => Some 0
  | Exit code => Some code
  | Raise _ => Some 1
  | Block => None
  end.

(** ** Notions used in the statements *)

(** *** The phoneme chain *)

(** The eSpeak run for [text] succeeds: the child ends within the
    timeout with status 0 and an output that is not blank. *)
Definition espeak_succeeds (E : Env) (self : PatchedEspeakBackend)
    (text : pystr) (w : World) : bool :=
  let data_exists := bool_decide (is_Some (w_files w !! espeak_data E)) in
  match child E (espeak_cmd self E data_exists text) with
  | Finishes d rc out => (d <=? seconds 30)%N && (rc =? 0) && truthy (strip out)
  | Hangs => false
  | Fails _ => false
  end.

Definition tier_succeeds (E : Env) (self : PatchedEspeakBackend)
    (text : pystr) (w : World) (t : Tier) : bool :=
  match t with
  | RealPhonemizer =>
    match real_phonemize E text with Some _ => true | None => false end
  | BundledEspeak => espeak_succeeds E self text w
  | CharSubstitution => true
  end.

(** The chain as the specification words it, and the chain of the code. *)
Definition three_tier_chain : list Tier :=
  [RealPhonemizer; BundledEspeak; CharSubstitution].

Definition two_tier_chain : list Tier :=
  [BundledEspeak; CharSubstitution].

(** The earliest tier of a chain that succeeds. *)
Definition best_tier (E : Env) (self : PatchedEspeakBackend)
    (text : pystr) (w : World) (chain : list Tier) : option Tier :=
  List.find (tier_succeeds E self text w) chain.

(** The text-to-speech package is not part of the script.  All that is
    used of it: it looks the back end up under [phonemizer], makes one
    with the keyword defaults and calls it.  With phonemizer's own class
    it would get that package's phonemes. *)
Definition client_phonemize (E : Env) (backend : option pyobj)
    (text : pystr) : M (Tier * pystr) :=
  match backend with
  | Some (Backend PatchedEspeakBackendClass) =>
    self <- default_backend E ;;
    phonemize_text E self text
  | Some (Backend RealEspeakBackend) =>
    match real_phonemize E text with
    | Some p => ret (RealPhonemizer, p)
    | None => raise (Exn OtherException (py "phonemizer failed"))
    end
  | _ => raise (Exn ImportError (py "No module named 'phonemizer'"))
  end.

(** The tier that serves [text] once the set-up block has run. *)
Definition tier_used (E : Env) (sys_modules : gmap string pyobj)
    (text : pystr) (w : World) : option Tier :=
  match client_phonemize E
          (backend_by_attribute E (install_patches sys_modules)) text w with
  | (Ret (t, _), _) => Some t
  | _ => None
  end.

(** *** The character table, as the specification lists it *)

Definition substitute_in_order (s : pystr) : pystr :=
  let s := replace (py "a") (py "æ") s in
  let s := replace (py "e") (py "ɛ") s in
  let s := replace (py "i") (py "ɪ") s in
  let s := replace (py "o") (py "ɔ") s in
  let s := replace (py "u") (py "ʊ") s in
  let s := replace (py "th") (py "θ") s in
  let s := replace (py "sh") (py "ʃ") s in
  let s := replace (py "ch") (py "ʧ") s in
  replace (py "ng") (py "ŋ") s.

(** *** Reports *)

(** A JSON object with a [success] flag; a failure also has a message. *)
Definition success_report (j : json) : Prop :=
  exists fields, j = JObj fields /\ dict_get (py "success") fields = Some (JBool true).

Definition failure_report (j : json) : Prop :=
  exists message,
    j = JObj [(py "success", JBool false); (py "error", JStr message)].




(** *** The loop of [phonemize] in closed form *)

(** The cleaned output of the eSpeak run for [text]. *)
Definition espeak_phonemes (E : Env) (self : PatchedEspeakBackend)
    (text : pystr) (w : World) : pystr :=
  let data_exists := bool_decide (is_Some (w_files w !! espeak_data E)) in
  match child E (espeak_cmd self E data_exists text) with
  | Finishes _ _ out => join (py " ") (split (strip out))
  | Hangs => []
  | Fails _ => []
  end.

(** eSpeak's phonemes when the run succeeds, the table's otherwise. *)
Definition phonemes_for (E : Env) (self : PatchedEspeakBackend)
    (text : pystr) (w : World) : Tier * pystr :=
  if espeak_succeeds E self text w
  then (BundledEspeak, espeak_phonemes E self text w)
  else (CharSubstitution, _text_to_basic_ipa E text).

(** The [subprocess.run] call made for [text]. *)
Definition run_of (E : Env) (self : PatchedEspeakBackend)
    (text : pystr) (w : World) : RunArgs :=
  espeak_args (espeak_cmd self E
                 (bool_decide (is_Some (w_files w !! espeak_data E))) text).

(** What one pass of the loop does to the world: one run is logged and
    the clock moves by at most the timeout. *)
Definition one_run (a : RunArgs) (w w' : World) : Prop :=
  exists d, (d <= seconds 30)%N /\ w' = advance d (log_run a w).

(** *** The ways [generate_audio] ends *)

Definition audio_report (output_path : pystr) (file_size : Z) (voice : pystr)
    (speed : spec_float) (text : pystr) : json :=
  JObj [ (py "success", JBool true);
         (py "output_path", JStr output_path);
         (py "file_size", JInt file_size);
         (py "voice", JStr voice);
         (py "speed", JFloat speed);
         (py "text_length", JInt (len text)) ].

Definition call_of (text voice : pystr) (speed : spec_float)
    (output_path : pystr) : GenCall :=
  {| gc_text := text; gc_output_path := output_path;
     gc_voice := voice; gc_speed := speed |}.

Inductive audio_outcome (E : Env) (self : CarelessKittenBridge)
    (text voice : pystr) (speed : spec_float) (output_path : pystr)
    (w : World) : bool -> World -> Prop :=
  | init_failed e :
      model self = None ->
      kitten_init E (py "KittenML/kitten-tts-nano-0.1") = Some e ->
      audio_outcome E self text voice speed output_path w false
        (print_stderr (Json (error_report
           (py "Failed to initialize KittenTTS: " ++ exn_str e))) w)
  | bad_voice :
      voice_in voice (supported_voices self) = false ->
      audio_outcome E self text voice speed output_path w false
        (print_stderr (Json (error_report
           (py "Unsupported voice: " ++ voice ++ py ". Supported: "
            ++ join (py ", ") (supported_voices self)))) w)
  | bad_speed :
      voice_in voice (supported_voices self) = true ->
      speed_in_range speed = false ->
      audio_outcome E self text voice speed output_path w false
        (print_stderr (Json (error_report
           (py "Speed must be between 0.5 and 2.0, got: "
            ++ float_str E speed))) w)
  | generation_raised e fs :
      voice_in voice (supported_voices self) = true ->
      speed_in_range speed = true ->
      generate_to_file E (call_of text voice speed output_path) (w_files w)
      = (Some e, fs) ->
      audio_outcome E self text voice speed output_path w false
        (print_stderr (Json (error_report
           (py "TTS generation failed: " ++ exn_str e)))
           (log_generate (call_of text voice speed output_path) fs w))
  | not_created fs :
      voice_in voice (supported_voices self) = true ->
      speed_in_range speed = true ->
      generate_to_file E (call_of text voice speed output_path) (w_files w)
      = (None, fs) ->
      fs !! output_path = None ->
      audio_outcome E self text voice speed output_path w false
        (print_stderr (Json (error_report
           (py "Output file not created: " ++ output_path)))
           (log_generate (call_of text voice speed output_path) fs w))
  | created_empty fs :
      voice_in voice (supported_voices self) = true ->
      speed_in_range speed = true ->
      generate_to_file E (call_of text voice speed output_path) (w_files w)
      = (None, fs) ->
      fs !! output_path = Some 0%N ->
      audio_outcome E self text voice speed output_path w false
        (print_stderr (Json (error_report
           (py "Output file is empty: " ++ output_path)))
           (log_generate (call_of text voice speed output_path) fs w))
  | generated fs size :
      voice_in voice (supported_voices self) = true ->
      speed_in_range speed = true ->
      generate_to_file E (call_of text voice speed output_path) (w_files w)
      = (None, fs) ->
      fs !! output_path = Some size ->
      (0 < size)%N ->
      audio_outcome E self text voice speed output_path w true
        (print_stdout
           (Json (audio_report output_path (Z.of_N size) voice speed text))
           (log_generate (call_of text voice speed output_path) fs w)).

(** *** The ways a run of the script ends *)

Definition voices_report : json :=
  JObj [ (py "success", JBool true);
         (py "voices", JList (List.map voice_entry voice_descriptions)) ].

Definition setup_message (e : exn) : pystr :=
  match exn_cls e with
  | ImportError =>
    py "KittenTTS setup failed: " ++ exn_str e
    ++ py ". Ensure all dependencies are installed."
  | TimeoutExpired => py "Unexpected error during setup: " ++ exn_str e
  | OtherException => py "Unexpected error during setup: " ++ exn_str e
  end.

Inductive script_outcome (E : Env) (argv : list pystr) (w : World)
  : result unit -> World -> Prop :=
  | setup_failed e :
      import_kittentts E = Some e ->
      script_outcome E argv w (Exit 1)
        (print_stderr (Json (error_report (setup_message e))) w)
  | usage_error err :
      import_kittentts E = None ->
      parse_known E (main_parser E) argv = ParseError err ->
      script_outcome E argv w (Exit 2)
        (print_stderr (Text (format_usage E err)) w)
  | help_printed :
      import_kittentts E = None ->
      parse_known E (main_parser E) argv = HelpExit ->
      script_outcome E argv w (Exit 0)
        (print_stdout (Text (format_help E)) w)
  | voices_listed ns :
      import_kittentts E = None ->
      parse_known E (main_parser E) argv = Parsed ns ->
      args_list_voices ns = true ->
      script_outcome E argv w (Ret tt) (print_stdout (Json voices_report) w)
  | required_missing ns :
      import_kittentts E = None ->
      parse_known E (main_parser E) argv = Parsed ns ->
      args_list_voices ns = false ->
      (forall text output,
         args_text ns = Some text -> args_output ns = Some output ->
         truthy text && truthy output = false) ->
      script_outcome E argv w (Exit 1)
        (print_stderr (Json (error_report
           (py "Both --text and --output are required for TTS generation"))) w)
  | audio_requested ns text output ok self' w' :
      import_kittentts E = None ->
      parse_known E (main_parser E) argv = Parsed ns ->
      args_list_voices ns = false ->
      args_text ns = Some text -> args_output ns = Some output ->
      truthy text = true -> truthy output = true ->
      generate_audio E new_bridge text (args_voice ns) (args_speed ns) output w
      = (Ret (ok, self'), w') ->
      audio_outcome E new_bridge text (args_voice ns) (args_speed ns) output
        w ok w' ->
      script_outcome E argv w (Exit (if ok then 0 else 1)) w'.

(** One report and nothing else: a success on standard output, or a
    failure on standard error. *)
Definition one_report (ok : bool) (w w' : World) : Prop :=
  if ok
  then exists j, success_report j
                 /\ w_stdout w' = w_stdout w ++ [Json j]
                 /\ w_stderr w' = w_stderr w
  else exists j, failure_report j
                 /\ w_stderr w' = w_stderr w ++ [Json j]
                 /\ w_stdout w' = w_stdout w.

(** *** The parser of [main] *)





(** *** Words and white space *)

Definition no_space (s : pystr) : bool := forallb (fun c => negb (isspace c)) s.
Definition all_space (s : pystr) : bool := forallb isspace s.

(** A word of [split]: not empty and without white space. *)
Definition is_word (s : pystr) : Prop := s <> [] /\ no_space s = true.

(** *** The bridge after a call *)

(** [self] after a call: the model is loaded if it was or if it could
    be. *)
Definition bridge_after (E : Env) (self : CarelessKittenBridge)
  : CarelessKittenBridge :=
  match model self with
  | Some _ => self
  | None =>
    match kitten_init E (py "KittenML/kitten-tts-nano-0.1") with
    | None => {| model := Some (py "KittenML/kitten-tts-nano-0.1");
                 supported_voices := supported_voices self |}
    | Some _ => self
    end
  end.

(** ** A sample installation *)

Module Sample.

Definition phonemizer_package (name : string) : option pyobj :=
  let backend :=
    Module "phonemizer.backend" [("EspeakBackend", Backend RealEspeakBackend)] in
  if String.eqb name "phonemizer"
  then Some (Module "phonemizer" [("backend", backend)])
  else if String.eqb name "phonemizer.backend" then Some backend
  else None.

Definition float_1_5 : spec_float := S754_finite false 6755399441055744 (-52).
Definition float_3_0 : spec_float := S754_finite false 6755399441055744 (-51).
Definition float_0_25 : spec_float := S754_finite false 4503599627370496 (-54).

(** [float] on the few strings the examples use. *)
Definition sample_float (s : pystr) : option spec_float :=
  if pystr_eqb s (py "0.25") then Some float_0_25
  else if pystr_eqb s (py "0.5") then Some float_0_5
  else if pystr_eqb s (py "1.0") then Some float_1_0
  else if pystr_eqb s (py "1.5") then Some float_1_5
  else if pystr_eqb s (py "2.0") then Some float_2_0
  else if pystr_eqb s (py "3.0") then Some float_3_0
  else None.

Definition ascii_digit (c : codepoint) : bool := ((48 <=? c) && (c <=? 57))%N.

(** eSpeak answers in 120 ms; the model writes a file of 2048 bytes;
    phonemizer is installed and would work. *)
Definition env : Env :=
  {| str_lower := ascii_lower;
     float_of_str := sample_float;
     float_str := fun _ => py "<float>";
     isdecimal := ascii_digit;
     format_usage := fun _ => py "usage: kitten_tts_bridge.py [-h] ...";
     format_help := py "usage: kitten_tts_bridge.py [-h] ... options: ...";
     espeak_exe := py "python/espeak/espeak.exe";
     espeak_data := py "python/espeak/espeak-data";
     child := fun _ => Finishes 120 0 (py " h@l'oU  w3:ld ");
     installed := phonemizer_package;
     import_kittentts := None;
     kitten_init := fun _ => None;
     generate_to_file := fun c fs => (None, <[gc_output_path c := 2048%N]> fs);
     real_phonemize := fun text => Some text |}.

(** The same with an eSpeak that never answers. *)
Definition env_hanging : Env :=
  {| str_lower := str_lower env; float_of_str := float_of_str env;
     float_str := float_str env; isdecimal := isdecimal env;
     format_usage := format_usage env; format_help := format_help env;
     espeak_exe := espeak_exe env; espeak_data := espeak_data env;
     child := fun _ => Hangs;
     installed := installed env; import_kittentts := import_kittentts env;
     kitten_init := kitten_init env;
     generate_to_file := generate_to_file env;
     real_phonemize := real_phonemize env |}.

(** The same with a model that writes nothing. *)
Definition env_silent : Env :=
  {| str_lower := str_lower env; float_of_str := float_of_str env;
     float_str := float_str env; isdecimal := isdecimal env;
     format_usage := format_usage env; format_help := format_help env;
     espeak_exe := espeak_exe env; espeak_data := espeak_data env;
     child := child env;
     installed := installed env; import_kittentts := import_kittentts env;
     kitten_init := kitten_init env;
     generate_to_file := fun c fs => (None, fs);
     real_phonemize := real_phonemize env |}.

Definition world : World :=
  {| w_stdout := []; w_stderr := [];
     w_files := {[ py "python/espeak/espeak.exe" := 400000%N ]};
     w_clock := 0; w_runs := []; w_generated := [] |}.

Definition backend : PatchedEspeakBackend :=
  {| language := py "en-us"; preserve_punctuation := false;
     with_stress := false; tie := false;
     language_switch := py "keep-flags"; words_mismatch := py "ignore";
     self_espeak_exe := py "python/espeak/espeak.exe" |}.

End Sample.

(** ** More samples *)

Module SampleRun.

Definition files : gmap pystr N :=
  {[ py "python/espeak/espeak.exe" := 400000%N ]}.

Definition process : Process :=
  {| environ := {[ "PATH" := py "C:\Windows;C:\Program Files\eSpeak\bin;C:\Tools";
                   "HOME" := py "C:\Users\me" ]};
     sys_path := [ py "C:\app\python\python311.zip";
                   py "C:\Users\me\AppData\Roaming\Python\site-packages";
                   py "C:\app\python\Lib\site-packages" ] |}.

(** The sample environment with a model that fails after it wrote a
    part of the file. *)
Definition env_failing : Env :=
  {| str_lower := str_lower Sample.env; float_of_str := float_of_str Sample.env;
     float_str := float_str Sample.env; isdecimal := isdecimal Sample.env;
     format_usage := format_usage Sample.env;
     format_help := format_help Sample.env;
     espeak_exe := espeak_exe Sample.env; espeak_data := espeak_data Sample.env;
     child := child Sample.env;
     installed := installed Sample.env;
     import_kittentts := import_kittentts Sample.env;
     kitten_init := kitten_init Sample.env;
     generate_to_file :=
       fun c fs => (Some (Exn OtherException (py "out of memory")),
                    <[gc_output_path c := 44%N]> fs);
     real_phonemize := real_phonemize Sample.env |}.

(** The sample environment with a model that cannot be loaded. *)
Definition env_no_model : Env :=
  {| str_lower := str_lower Sample.env; float_of_str := float_of_str Sample.env;
     float_str := float_str Sample.env; isdecimal := isdecimal Sample.env;
     format_usage := format_usage Sample.env;
     format_help := format_help Sample.env;
     espeak_exe := espeak_exe Sample.env; espeak_data := espeak_data Sample.env;
     child := child Sample.env;
     installed := installed Sample.env;
     import_kittentts := import_kittentts Sample.env;
     kitten_init := fun _ => Some (Exn OtherException (py "no weights"));
     generate_to_file := generate_to_file Sample.env;
     real_phonemize := real_phonemize Sample.env |}.

(** The sample environment without the kittentts package. *)
Definition env_no_kittentts : Env :=
  {| str_lower := str_lower Sample.env; float_of_str := float_of_str Sample.env;
     float_str := float_str Sample.env; isdecimal := isdecimal Sample.env;
     format_usage := format_usage Sample.env;
     format_help := format_help Sample.env;
     espeak_exe := espeak_exe Sample.env; espeak_data := espeak_data Sample.env;
     child := child Sample.env;
     installed := installed Sample.env;
     import_kittentts :=
       Some (Exn ImportError (py "No module named 'kittentts'"));
     kitten_init := kitten_init Sample.env;
     generate_to_file := generate_to_file Sample.env;
     real_phonemize := real_phonemize Sample.env |}.

End SampleRun.

(** * Properties *)

Ltac run_step :=
  unfold bind, ret, raise, sys_exit, try_except, print_out, print_err,
    path_exists, path_getsize in *; simpl in *.

(** ** Strings *)

Lemma pystr_eqb_eq (a b : pystr) : pystr_eqb a b = true <-> a = b.
Proof. unfold pystr_eqb. apply bool_decide_eq_true. Qed.

Lemma startswith_app (p s : pystr) : startswith p (p ++ s) = true.
Proof. induction p as [|c p IH]; simpl; [reflexivity|]. now rewrite N.eqb_refl. Qed.

Lemma startswith_prefix (p s : pystr) :
  startswith p s = true -> exists r, s = p ++ r.
Proof.
  revert s. induction p as [|c p IH]; intros s H; [now exists s|].
  destruct s as [|d s]; [discriminate|]. simpl in H.
  apply andb_true_iff in H as [Hc Hp]. apply N.eqb_eq in Hc as ->.
  destruct (IH s Hp) as [r ->]. now exists r.
Qed.

Lemma startswith_trans (p q s : pystr) :
  startswith p q = true -> startswith q s = true -> startswith p s = true.
Proof.
  intros Hp Hq. apply startswith_prefix in Hp as [r ->].
  apply startswith_prefix in Hq as [r' ->]. rewrite <- app_assoc.
  apply startswith_app.
Qed.


Section Replace.

Variables (old new : pystr).

(** A character that is neither in the text nor in the replacement is
    not in the result. *)
Lemma replace_from_fresh (c : codepoint) (s : pystr) :
  ~ In c new -> ~ In c s -> forall k, ~ In c (replace_from old new k s).
Proof.
  intros Hnew. induction s as [|x s IH]; intros Hs k; simpl; [tauto|].
  assert (Hs' : ~ In c s) by (intros H; apply Hs; now right).
  assert (Hx : x <> c) by (intros H; apply Hs; now left).
  destruct k as [|k]; [|now apply IH].
  destruct (startswith old (x :: s)).
  - rewrite in_app_iff. intros [H|H]; [tauto|]. now apply (IH Hs' (length old - 1)%nat).
  - simpl. intros [H|H]; [tauto|]. now apply (IH Hs' 0%nat).
Qed.

End Replace.

(** Replacing a single character leaves none of it. *)
Lemma replace_from_char_gone (c : codepoint) (new s : pystr) :
  ~ In c new -> forall k, ~ In c (replace_from [c] new k s).
Proof.
  intros Hnew. induction s as [|x s IH]; intros k; simpl; [tauto|].
  destruct k as [|k]; [|apply IH].
  destruct (N.eqb_spec c x) as [->|Hne]; simpl.
  - rewrite in_app_iff. intros [H|H]; [tauto|]. now apply (IH 0%nat).
  - intros [H|H]; [congruence|]. now apply (IH 0%nat).
Qed.

Section Digraph.

Variables (x y z : codepoint).
Hypothesis (Hzx : z <> x) (Hzy : z <> y).

(** The result of a scan starts with the new character or with the
    first character of the text. *)
Lemma replace_from_head (old s : pystr) :
  startswith [y] s = false -> startswith [y] (replace_from old [z] 0 s) = false.
Proof.
  destruct s as [|d s]; simpl; [easy|].
  intros Hd. destruct (startswith old (d :: s)); simpl.
  - destruct (N.eqb_spec y z); [congruence|easy].
  - exact Hd.
Qed.

(** A pair that does not occur in the text does not occur in the result
    of replacing something else by [z]. *)
Lemma replace_from_keeps_absent (old s : pystr) :
  contains [x; y] s = false ->
  forall k, contains [x; y] (replace_from old [z] k s) = false.
Proof.
  induction s as [|c s IH]; intros Hs k; [reflexivity|].
  cbn [contains] in Hs. apply orb_false_iff in Hs as [Hhead Hs].
  specialize (IH Hs).
  cbn [replace_from]. destruct k as [|k]; [|apply IH].
  destruct (startswith old (c :: s)).
  - cbn [app contains]. rewrite IH, orb_false_r. simpl.
    destruct (N.eqb_spec x z); [congruence|easy].
  - cbn [contains]. rewrite IH, orb_false_r.
    cbn [startswith] in Hhead |- *.
    destruct (x =? c)%N; [|easy]. simpl in Hhead |- *.
    apply replace_from_head. exact Hhead.
Qed.

(** Replacing a pair by [z] leaves no occurrence of the pair. *)
Lemma replace_from_pair_gone (s : pystr) :
  forall k, contains [x; y] (replace_from [x; y] [z] k s) = false.
Proof.
  induction s as [|c s IH]; intros k; [reflexivity|].
  cbn [replace_from]. destruct k as [|k]; [|apply IH].
  destruct (startswith [x; y] (c :: s)) eqn:Hm.
  - cbn [app contains]. rewrite IH, orb_false_r. simpl.
    destruct (N.eqb_spec x z); [congruence|easy].
  - cbn [contains]. rewrite IH, orb_false_r.
    cbn [startswith] in Hm |- *.
    destruct (x =? c)%N; [|easy]. simpl in Hm |- *.
    apply replace_from_head. exact Hm.
Qed.

End Digraph.

(** ** The loop of [phonemize] *)

Lemma phonemize_text_run (E : Env) (self : PatchedEspeakBackend)
    (text : pystr) (w : World) :
  exists w', phonemize_text E self text w = (Ret (phonemes_for E self text w), w')
             /\ one_run (run_of E self text w) w w'.
Proof.
  unfold phonemize_text, phonemes_for, espeak_succeeds, espeak_phonemes,
    run_of, one_run, subprocess_run.
  run_step.
  destruct (child E _) as [d rc out| |e]; simpl.
  - destruct (N.leb_spec d (seconds 30)); simpl.
    + destruct ((rc =? 0) && truthy (strip out)); eexists; (split; [reflexivity|]);
        exists d; split; auto.
    + eexists; split; [reflexivity|]. exists (seconds 30). split; [lia|reflexivity].
  - eexists; split; [reflexivity|]. exists (seconds 30). split; [lia|reflexivity].
  - eexists; split; [reflexivity|]. exists 0%N. split; [unfold seconds; lia|].
    unfold advance, log_run; simpl. f_equal. lia.
Qed.

Lemma phonemes_for_files (E : Env) (self : PatchedEspeakBackend)
    (text : pystr) (w1 w2 : World) :
  w_files w1 = w_files w2 ->
  phonemes_for E self text w1 = phonemes_for E self text w2
  /\ run_of E self text w1 = run_of E self text w2.
Proof.
  intros H. unfold phonemes_for, espeak_succeeds, espeak_phonemes, run_of.
  now rewrite H.
Qed.

(** The parts of the world that a run leaves alone, and the ones it
    changes. *)
Lemma one_run_frame (a : RunArgs) (w w' : World) :
  one_run a w w' ->
  w_stdout w' = w_stdout w /\ w_stderr w' = w_stderr w
  /\ w_files w' = w_files w /\ w_generated w' = w_generated w
  /\ w_runs w' = w_runs w ++ [a]
  /\ (w_clock w <= w_clock w' <= w_clock w + seconds 30)%N.
Proof.
  intros (d & Hd & ->). simpl. repeat split; lia.
Qed.

Lemma phonemize_loop_run (E : Env) (self : PatchedEspeakBackend)
    (texts : list pystr) :
  forall (results : list (Tier * pystr)) (w : World),
  exists w',
    phonemize_loop E self results texts w
    = (Ret (results ++ List.map (fun t => phonemes_for E self t w) texts), w')
    /\ w_stdout w' = w_stdout w /\ w_stderr w' = w_stderr w
    /\ w_files w' = w_files w /\ w_generated w' = w_generated w
    /\ w_runs w' = w_runs w ++ List.map (fun t => run_of E self t w) texts
    /\ (w_clock w <= w_clock w'
        <= w_clock w + seconds 30 * N.of_nat (length texts))%N.
Proof.
  induction texts as [|text rest IH]; intros results w.
  - exists w. simpl. rewrite !app_nil_r. repeat split; lia.
  - destruct (phonemize_text_run E self text w) as (w1 & Hrun & Hone).
    apply one_run_frame in Hone as (Ho & He & Hf & Hg & Hr & Hc).
    destruct (IH (results ++ [phonemes_for E self text w]) w1)
      as (w' & Hloop & Ho' & He' & Hf' & Hg' & Hr' & Hc').
    exists w'. cbn [phonemize_loop]. unfold bind at 1. rewrite Hrun, Hloop.
    split.
    { f_equal. f_equal. rewrite <- app_assoc. cbn [List.map app]. do 2 f_equal.
      apply map_ext. intros t. now apply phonemes_for_files. }
    repeat split; try congruence.
    + rewrite Hr', Hr, <- app_assoc. cbn [List.map app]. do 2 f_equal.
      apply map_ext. intros t. now apply phonemes_for_files.
    + lia.
    + cbn [length]. lia.
Qed.

(** ** Comparisons of floats *)

(** [a < b] excludes [b <= a], also for infinities and NaN. *)
Lemma SFltb_not_SFleb (a b : spec_float) :
  SFltb a b = true -> SFleb b a = false.
Proof.
  unfold SFltb, SFleb.
  destruct a as [sa|sa| |sa ma ea], b as [sb|sb| |sb mb eb]; simpl;
    try discriminate; try reflexivity;
    try (destruct sa; discriminate || reflexivity);
    try (destruct sb; discriminate || reflexivity);
    try (destruct sa, sb; discriminate || reflexivity).
  assert (Hm : Pos.compare_cont Eq mb ma = CompOpp (Pos.compare_cont Eq ma mb))
    by (now rewrite Pos.compare_cont_antisym).
  destruct sa, sb; try discriminate; try reflexivity;
    rewrite (Z.compare_antisym ea eb), Hm;
    destruct (ea ?= eb); simpl; try discriminate; try reflexivity;
    destruct (Pos.compare_cont Eq ma mb); simpl; discriminate || reflexivity.
Qed.

Lemma out_of_range (speed : spec_float) :
  SFltb speed float_0_5 = true \/ SFltb float_2_0 speed = true ->
  speed_in_range speed = false.
Proof.
  unfold speed_in_range. intros [H|H]; apply SFltb_not_SFleb in H; rewrite H.
  - reflexivity.
  - apply andb_false_r.
Qed.

(** ** [generate_audio] *)

Lemma success_audio_json (output_path : pystr) (file_size : Z) (voice : pystr)
    (speed : spec_float) (text : pystr) (w : World) :
  _success [ (py "output_path", JStr output_path);
             (py "file_size", JInt file_size);
             (py "voice", JStr voice);
             (py "speed", JFloat speed);
             (py "text_length", JInt (len text)) ] w
  = (Ret tt, print_stdout (Json (audio_report output_path file_size voice speed text)) w).
Proof. reflexivity. Qed.

Lemma generate_audio_outcome (E : Env) (self : CarelessKittenBridge)
    (text voice : pystr) (speed : spec_float) (output_path : pystr) (w : World) :
  exists ok self' w',
    generate_audio E self text voice speed output_path w = (Ret (ok, self'), w')
    /\ supported_voices self' = supported_voices self
    /\ audio_outcome E self text voice speed output_path w ok w'.
Proof.
  unfold generate_audio, initialize_model, KittenTTS.
  assert (Hinit :
    (exists e, model self = None
       /\ kitten_init E (py "KittenML/kitten-tts-nano-0.1") = Some e)
    \/ exists self1 : CarelessKittenBridge,
         supported_voices self1 = supported_voices self /\
         (match model self with
          | None =>
            try_except
              (m <- match kitten_init E (py "KittenML/kitten-tts-nano-0.1") with
                    | None => ret (py "KittenML/kitten-tts-nano-0.1")
                    | Some e => raise e
                    end ;;
               ret (true, {| model := Some m; supported_voices := supported_voices self |}))
              (fun e => _error (py "Failed to initialize KittenTTS: " ++ exn_str e) ;;;
                        ret (false, self))
          | Some _ => ret (true, self)
          end) w = (Ret (true, self1), w)).
  { destruct (model self) eqn:Hm.
    - right. exists self. split; reflexivity.
    - destruct (kitten_init E _) eqn:Hk.
      + left. eauto.
      + right. eexists. split; [|reflexivity]. reflexivity. }
  destruct Hinit as [(e & Hm & Hk)|(self1 & Hv & Hrun)].
  - rewrite Hm, Hk. exists false, self. eexists. split; [reflexivity|]. split; [reflexivity|].
    now apply init_failed.
  - unfold bind at 1. rewrite Hrun. cbn [negb]. rewrite Hv. cbv iota beta.
    exists (match voice_in voice (supported_voices self) with
            | false => false
            | true => match speed_in_range speed with
                      | false => false
                      | true => match generate_to_file E (call_of text voice speed output_path) (w_files w) with
                                | (Some _, _) => false
                                | (None, fs) => match fs !! output_path with
                                                | None => false
                                                | Some n => negb (Z.of_N n =? 0)
                                                end
                                end
                      end
            end), self1.
    destruct (voice_in voice (supported_voices self)) eqn:Hvoice; cbn [negb].
    2:{ eexists. split; [reflexivity|]. split; [exact Hv|]. now apply bad_voice. }
    destruct (speed_in_range speed) eqn:Hspeed; cbn [negb].
    2:{ eexists. split; [reflexivity|]. split; [exact Hv|]. now apply bad_speed. }
    unfold try_except, bind at 1, model_generate_to_file.
    fold (call_of text voice speed output_path).
    destruct (generate_to_file E _ _) as [[e|] fs] eqn:Hgen.
    { eexists. split; [reflexivity|]. split; [exact Hv|]. now apply generation_raised. }
    unfold bind at 1, path_exists. cbn [w_files log_generate].
    destruct (fs !! output_path) as [size|] eqn:Hfile.
    2:{ rewrite bool_decide_eq_false_2 by (intros [? ?]; discriminate). cbn [negb].
        eexists. split; [reflexivity|]. split; [exact Hv|]. now apply not_created. }
    rewrite bool_decide_eq_true_2 by eauto. cbn [negb].
    unfold bind at 1, path_getsize. cbn [w_files log_generate]. rewrite Hfile.
    destruct (Z.eqb_spec (Z.of_N size) 0) as [Hz|Hz]; cbn [negb].
    { assert (size = 0%N) by lia. subst size.
      eexists. split; [reflexivity|]. split; [exact Hv|]. now apply created_empty. }
    eexists. split; [reflexivity|]. split; [exact Hv|].
    apply generated; auto. lia.
Qed.

(** ** The command line *)

Section Parser.

Variable E : Env.
Variable parser : list Argument.





End Parser.



Lemma startswith_nil_r (s : pystr) : startswith s [] = true -> s = [].
Proof. now destruct s. Qed.

Ltac eval_py :=
  repeat match goal with
         | |- context [py ?s] =>
           let v := eval vm_compute in (py s) in change (py s) with v
         end.

Ltac eval_py_in H :=
  repeat match type of H with
         | context [py ?s] =>
           let v := eval vm_compute in (py s) in change (py s) with v in H
         end.










(** ** The script as a whole *)

Lemma list_voices_prints (self : CarelessKittenBridge) (w : World) :
  list_voices self w = (Ret tt, print_stdout (Json voices_report) w).
Proof. reflexivity. Qed.

Lemma script_run (E : Env) (sys_modules : gmap string pyobj)
    (argv : list pystr) (w : World) :
  exists r w',
    script E sys_modules argv w = (r, w') /\ script_outcome E argv w r w'.
Proof.
  unfold script, setup. unfold bind at 1, try_except.
  destruct (import_kittentts E) as [e|] eqn:Himp.
  { unfold raise. exists (Exit 1).
    exists (print_stderr (Json (error_report (setup_message e))) w). split.
    - unfold setup_message. now destruct (exn_cls e).
    - now apply setup_failed. }
  unfold ret at 1. unfold main, parse_args. unfold bind at 1.
  destruct (parse_known E (main_parser E) argv) as [ns|err|] eqn:Hparse.
  - unfold ret at 1. cbv beta iota.
    destruct (args_list_voices ns) eqn:Hlist.
    { unfold bind. rewrite list_voices_prints. do 2 eexists. split; [reflexivity|].
      eapply voices_listed; eauto. }
    assert (Hmissing : forall k : M unit,
      (forall text output,
         args_text ns = Some text -> args_output ns = Some output ->
         truthy text && truthy output = false) ->
      exists r w',
        (_error (py "Both --text and --output are required for TTS generation") ;;;
         sys_exit 1) w = (r, w') /\ script_outcome E argv w r w').
    { intros _ H. do 2 eexists. split; [reflexivity|].
      eapply required_missing; eauto. }
    destruct (args_text ns) as [text|] eqn:Htext.
    2:{ apply (Hmissing (ret tt)). intros; discriminate. }
    destruct (args_output ns) as [output|] eqn:Hout.
    2:{ apply (Hmissing (ret tt)). intros; discriminate. }
    destruct (truthy text) eqn:Ht; cbn [negb orb].
    2:{ apply (Hmissing (ret tt)). intros ? ? [= <-] [= <-]. now rewrite Ht. }
    destruct (truthy output) eqn:Ho; cbn [negb orb].
    2:{ apply (Hmissing (ret tt)). intros ? ? [= <-] [= <-]. now rewrite Ho, andb_false_r. }
    unfold bind.
    destruct (generate_audio_outcome E new_bridge text (args_voice ns) (args_speed ns) output w)
      as (ok & self' & w' & Hgen & _ & Hout').
    rewrite Hgen. do 2 eexists. split; [reflexivity|].
    eapply audio_requested; eauto.
  - do 2 eexists. split; [reflexivity|]. now apply usage_error.
  - do 2 eexists. split; [reflexivity|]. now apply help_printed.
Qed.

(** ** The character table (C7) *)

Lemma basic_ipa_unfold (E : Env) (text : pystr) :
  _text_to_basic_ipa E text = substitute_in_order (str_lower E text).
Proof. reflexivity. Qed.

(** No vowel of the table is left. *)
Lemma substitute_no_vowel (s : pystr) (c : N) :
  In c (py "aeiou") -> ~ In c (substitute_in_order s).
Proof.
  intros Hc. unfold substitute_in_order. eval_py. eval_py_in Hc.
  unfold replace.
  repeat (destruct Hc as [<-|Hc];
    [ repeat first
        [ apply replace_from_char_gone; simpl; intros [?|[]]; discriminate
        | apply replace_from_fresh; [simpl; intros [?|[]]; discriminate|] ] |]).
  destruct Hc.
Qed.

(** No pair of the table is left. *)
Lemma substitute_no_pair (s : pystr) (pair : pystr) :
  In pair [py "th"; py "sh"; py "ch"; py "ng"] ->
  contains pair (substitute_in_order s) = false.
Proof.
  intros Hp. unfold substitute_in_order. eval_py. eval_py_in Hp.
  unfold replace.
  repeat (destruct Hp as [<-|Hp];
    [ repeat first
        [ apply replace_from_pair_gone; discriminate
        | apply replace_from_keeps_absent; [discriminate|discriminate|] ] |]).
  destruct Hp.
Qed.

(** C7. [_text_to_basic_ipa] is the text in lower case with the nine
    entries of the table replaced one after the other in the order of the
    dict: afterwards none of the vowels a, e, i, o, u and none of the
    pairs th, sh, ch, ng is left.  The result is a function of the
    lower-cased text alone, so two runs on the same input agree. *)
Theorem basic_ipa_is_ordered_substitution (E : Env) (text : pystr) :
  _text_to_basic_ipa E text = substitute_in_order (str_lower E text)
  /\ (forall c, In c (py "aeiou") -> ~ In c (_text_to_basic_ipa E text))
  /\ (forall pair, In pair [py "th"; py "sh"; py "ch"; py "ng"] ->
                   contains pair (_text_to_basic_ipa E text) = false)
  /\ (forall E' text', str_lower E' text' = str_lower E text ->
                       _text_to_basic_ipa E' text' = _text_to_basic_ipa E text).
Proof.
  split; [reflexivity|]. rewrite basic_ipa_unfold. repeat split.
  - apply substitute_no_vowel.
  - apply substitute_no_pair.
  - intros E' text' H. now rewrite basic_ipa_unfold, H.
Qed.

Lemma basic_ipa_is_ordered_substitution_witness :
  _text_to_basic_ipa Sample.env (py "Church Thing") = py "ʧʊrʧ θɪŋ"
  /\ ~ In 105%N (_text_to_basic_ipa Sample.env (py "Church Thing"))
  /\ contains (py "ch") (_text_to_basic_ipa Sample.env (py "Church Thing")) = false
  /\ _text_to_basic_ipa Sample.env_hanging (py "CHURCH THING")
     = _text_to_basic_ipa Sample.env (py "Church Thing").
Proof.
  destruct (basic_ipa_is_ordered_substitution Sample.env (py "Church Thing"))
    as (H1 & H2 & H3 & H4).
  split; [rewrite H1; vm_compute; reflexivity|].
  split; [apply H2; vm_compute; tauto|].
  split; [apply H3; vm_compute; tauto|].
  apply H4. vm_compute. reflexivity.
Defined.

(** ** The phoneme chain (C1, C5, C6) *)

Lemma phonemize_run (E : Env) (self : PatchedEspeakBackend)
    (text_list : TextArg) (w : World) :
  exists w',
    phonemize E self text_list w
    = (Ret (List.map (fun t => snd (phonemes_for E self t w))
                     (as_text_list text_list)), w')
    /\ w_stdout w' = w_stdout w /\ w_stderr w' = w_stderr w
    /\ w_files w' = w_files w /\ w_generated w' = w_generated w
    /\ w_runs w'
       = w_runs w ++ List.map (fun t => run_of E self t w) (as_text_list text_list)
    /\ (w_clock w <= w_clock w'
        <= w_clock w + seconds 30 * N.of_nat (length (as_text_list text_list)))%N.
Proof.
  destruct (phonemize_loop_run E self (as_text_list text_list) [] w)
    as (w' & Hloop & Hrest).
  exists w'. split; [|exact Hrest].
  unfold phonemize, phonemize_tagged, bind. rewrite Hloop. unfold ret.
  now rewrite app_nil_l, map_map.
Qed.


(** C6. Every [subprocess.run] call of [phonemize] is made with
    [timeout=30]; there is one call per text, each finished before the
    next; [phonemize] never blocks, and the time it waits for child
    processes is at most 30 seconds per text, also when the child never
    ends. *)
Theorem espeak_runs_are_bounded (E : Env) (self : PatchedEspeakBackend)
    (text_list : TextArg) (w : World) :
  exists results w' runs,
    phonemize E self text_list w = (Ret results, w')
    /\ w_runs w' = w_runs w ++ runs
    /\ length runs = length (as_text_list text_list)
    /\ Forall (fun a => ra_timeout a = Some (seconds 30)) runs
    /\ (w_clock w <= w_clock w'
        <= w_clock w + seconds 30 * N.of_nat (length (as_text_list text_list)))%N.
Proof.
  destruct (phonemize_run E self text_list w)
    as (w' & H & _ & _ & _ & _ & Hr & Hc).
  eexists. exists w'. eexists. split; [exact H|]. split; [exact Hr|].
  rewrite length_map. split; [reflexivity|]. split; [|exact Hc].
  apply Forall_forall. intros a Ha. apply list_elem_of_In in Ha.
  apply in_map_iff in Ha as (t & <- & _). reflexivity.
Qed.

(** Without the timeout the same call would block on a child that never
    ends. *)
Example run_without_timeout_blocks :
  fst (subprocess_run Sample.env_hanging
         {| ra_cmd := [py "espeak"]; ra_capture_output := true;
            ra_text := true; ra_timeout := None; ra_encoding := py "utf-8" |}
         Sample.world) = Block.
Proof. reflexivity. Qed.

Example hanging_espeak_falls_back :
  fst (phonemize Sample.env_hanging Sample.backend
         (StrList [py "The ship"; py "sing"]) Sample.world)
  = Ret [py "θɛ ʃɪp"; py "sɪŋ"]
  /\ w_clock (snd (phonemize Sample.env_hanging Sample.backend
                     (StrList [py "The ship"; py "sing"]) Sample.world))
     = seconds 60.
Proof. split; vm_compute; reflexivity. Qed.

Example answering_espeak_is_used :
  fst (phonemize Sample.env Sample.backend (OneStr (py "hello world")) Sample.world)
  = Ret [py "h@l'oU w3:ld"].
Proof. vm_compute. reflexivity. Qed.

(** After the set-up block every way to the back end ends at the
    replacement, whatever was in [sys.modules] and whatever is
    installed. *)
Lemma patched_backend_everywhere (E : Env) (sys_modules : gmap string pyobj) :
  backend_by_attribute E (install_patches sys_modules)
  = Some (Backend PatchedEspeakBackendClass)
  /\ backend_by_from E (install_patches sys_modules) "phonemizer.backend"
     = Some (Backend PatchedEspeakBackendClass)
  /\ backend_by_from E (install_patches sys_modules) "phonemizer.backend.espeak"
     = Some (Backend PatchedEspeakBackendClass).
Proof.
  unfold backend_by_attribute, backend_by_from, import_module, install_patches.
  repeat split.
  - rewrite lookup_insert_ne, lookup_insert_ne, lookup_insert_ne, lookup_insert_eq by done.
    reflexivity.
  - rewrite lookup_insert_ne, lookup_insert_ne, lookup_insert_eq by done. reflexivity.
  - rewrite lookup_insert_ne, lookup_insert_eq by done. reflexivity.
Qed.

Lemma default_backend_run (E : Env) (w : World) :
  exists self,
    fst (default_backend E w) = Ret self
    /\ forall text,
         client_phonemize E (Some (Backend PatchedEspeakBackendClass)) text w
         = phonemize_text E self text w.
Proof. eexists. split; reflexivity. Qed.

Lemma best_of_two (E : Env) (self : PatchedEspeakBackend) (text : pystr) (w : World) :
  best_tier E self text w two_tier_chain = Some (fst (phonemes_for E self text w)).
Proof.
  unfold best_tier, two_tier_chain, phonemes_for. simpl.
  now destruct (espeak_succeeds E self text w).
Qed.

(** C1, as the code has it.  The chain has two tiers.  The set-up block
    puts its own back end under every name of [phonemizer], so the real
    phonemizer is never tried; for every text the back end uses the
    bundled eSpeak when its run succeeds and the character substitution
    exactly when that run fails. *)
Theorem two_tier_fallback_chain (E : Env) (sys_modules : gmap string pyobj)
    (text : pystr) (w : World) :
  (backend_by_attribute E (install_patches sys_modules)
   = Some (Backend PatchedEspeakBackendClass)
   /\ backend_by_from E (install_patches sys_modules) "phonemizer.backend"
      = Some (Backend PatchedEspeakBackendClass)
   /\ backend_by_from E (install_patches sys_modules) "phonemizer.backend.espeak"
      = Some (Backend PatchedEspeakBackendClass))
  /\ (exists self,
        fst (default_backend E w) = Ret self
        /\ tier_used E sys_modules text w
           = best_tier E self text w two_tier_chain)
  /\ tier_used E sys_modules text w <> Some RealPhonemizer
  /\ (forall self,
        fst (phonemize_text E self text w)
        = Ret (if espeak_succeeds E self text w
               then (BundledEspeak, espeak_phonemes E self text w)
               else (CharSubstitution, _text_to_basic_ipa E text))).
Proof.
  pose proof (patched_backend_everywhere E sys_modules) as Hp.
  split; [exact Hp|]. destruct Hp as (Hp & _).
  assert (Hused : exists self,
            fst (default_backend E w) = Ret self
            /\ tier_used E sys_modules text w
               = Some (fst (phonemes_for E self text w))).
  { destruct (default_backend_run E w) as (self & Hself & Hclient).
    exists self. split; [exact Hself|].
    unfold tier_used. rewrite Hp, Hclient.
    destruct (phonemize_text_run E self text w) as (w' & -> & _).
    now destruct (phonemes_for E self text w). }
  destruct Hused as (self & Hself & Hused). repeat split.
  - exists self. split; [exact Hself|]. now rewrite best_of_two.
  - rewrite Hused. unfold phonemes_for.
    destruct (espeak_succeeds E self text w); discriminate.
  - intros self0. destruct (phonemize_text_run E self0 text w) as (w' & -> & _).
    reflexivity.
Qed.

Lemma two_tier_fallback_chain_witness :
  tier_used Sample.env ∅ (py "hello") Sample.world <> Some RealPhonemizer
  /\ fst (phonemize_text Sample.env Sample.backend (py "hello") Sample.world)
     = Ret (BundledEspeak, py "h@l'oU w3:ld").
Proof.
  destruct (two_tier_fallback_chain Sample.env ∅ (py "hello") Sample.world)
    as (_ & _ & Hreal & Htext).
  split; [exact Hreal|]. rewrite Htext. vm_compute. reflexivity.
Defined.

(** C1, as it is worded, fails where phonemizer is installed and would
    work: the earliest tier of three that succeeds is the real
    phonemizer, and the tier used is eSpeak. *)
Lemma real_phonemizer_is_bypassed :
  tier_used Sample.env ∅ (py "hello") Sample.world = Some BundledEspeak
  /\ fst (default_backend Sample.env Sample.world) = Ret Sample.backend
  /\ best_tier Sample.env Sample.backend (py "hello") Sample.world three_tier_chain
     = Some RealPhonemizer
  /\ tier_used Sample.env ∅ (py "hello") Sample.world
     <> best_tier Sample.env Sample.backend (py "hello") Sample.world
          three_tier_chain.
Proof.
  assert (H1 : tier_used Sample.env ∅ (py "hello") Sample.world = Some BundledEspeak)
    by (vm_compute; reflexivity).
  assert (H2 : best_tier Sample.env Sample.backend (py "hello") Sample.world
                 three_tier_chain = Some RealPhonemizer)
    by (vm_compute; reflexivity).
  split; [exact H1|]. split; [vm_compute; reflexivity|]. split; [exact H2|].
  rewrite H1, H2. discriminate.
Qed.

(** ** Validation and verification in [generate_audio] (C8, C9, C10) *)

(** What an outcome says about the two streams, the files and the calls
    to the model. *)
Lemma audio_outcome_frame (E : Env) (self : CarelessKittenBridge)
    (text voice : pystr) (speed : spec_float) (output_path : pystr)
    (w : World) (ok : bool) (w' : World) :
  audio_outcome E self text voice speed output_path w ok w' ->
  (if ok
   then exists size,
          w_files w' !! output_path = Some size /\ (0 < size)%N
          /\ w_stdout w'
             = w_stdout w
               ++ [Json (audio_report output_path (Z.of_N size) voice speed text)]
          /\ w_stderr w' = w_stderr w
   else w_stdout w' = w_stdout w
        /\ exists message,
             w_stderr w' = w_stderr w ++ [Json (error_report message)])
  /\ (w_generated w' = w_generated w
      \/ w_generated w'
         = w_generated w ++ [call_of text voice speed output_path]
         /\ voice_in voice (supported_voices self) = true
         /\ speed_in_range speed = true)
  /\ (w_files w' !! output_path = None
      \/ w_files w' !! output_path = Some 0%N -> ok = false).
Proof.
  intros H. destruct H; simpl.
  all: try (split; [split; [reflexivity|eexists; reflexivity]|]).
  all: try (split; [now left| ]).
  all: try (split; [now right| ]).
  all: try reflexivity.
  all: try (intros _; reflexivity).
  split; [exists size; auto|]. split; [now right|].
  intros [Hn|Hz]; [congruence|]. rewrite H2 in Hz. injection Hz as ->. lia.
Qed.

(** C8. A speed strictly below 0.5 or strictly above 2.0 makes
    [generate_audio] print a JSON error and return [False] without a call
    to the model's [generate_to_file]; the message is the one about the
    speed when the model is loaded and the voice is valid.  A speed with
    [0.5 <= speed <= 2.0] passes the check, so that with a loaded model
    and a valid voice the model is called; 0.5 and 2.0 themselves pass. *)
Theorem speed_is_validated (E : Env) (self : CarelessKittenBridge)
    (text voice : pystr) (speed : spec_float) (output_path : pystr)
    (w : World) :
  (SFltb speed float_0_5 = true \/ SFltb float_2_0 speed = true ->
   exists self' w' message,
     generate_audio E self text voice speed output_path w
     = (Ret (false, self'), w')
     /\ w_stderr w' = w_stderr w ++ [Json (error_report message)]
     /\ w_stdout w' = w_stdout w
     /\ w_generated w' = w_generated w
     /\ (model self <> None
         \/ kitten_init E (py "KittenML/kitten-tts-nano-0.1") = None ->
         voice_in voice (supported_voices self) = true ->
         message = py "Speed must be between 0.5 and 2.0, got: "
                   ++ float_str E speed))
  /\ (SFleb float_0_5 speed = true /\ SFleb speed float_2_0 = true ->
      speed_in_range speed = true
      /\ (model self <> None
          \/ kitten_init E (py "KittenML/kitten-tts-nano-0.1") = None ->
          voice_in voice (supported_voices self) = true ->
          w_generated (snd (generate_audio E self text voice speed output_path w))
          = w_generated w ++ [call_of text voice speed output_path]))
  /\ speed_in_range float_0_5 = true
  /\ speed_in_range float_2_0 = true.
Proof.
  destruct (generate_audio_outcome E self text voice speed output_path w)
    as (ok & self' & w' & Hrun & _ & Hout).
  split; [|split; [|split; reflexivity]].
  - intros Hspeed. apply out_of_range in Hspeed.
    destruct Hout; try congruence.
    + eexists _, _, _. split; [exact Hrun|]. simpl. repeat split.
      intros [Hm|Hk]; congruence.
    + eexists _, _, _. split; [exact Hrun|]. simpl. repeat split. congruence.
    + eexists _, _, _. split; [exact Hrun|]. simpl. repeat split.
  - intros [Hlo Hhi].
    assert (Hspeed : speed_in_range speed = true)
      by (unfold speed_in_range; now rewrite Hlo, Hhi).
    split; [exact Hspeed|]. intros Hmodel Hvoice. rewrite Hrun. simpl.
    destruct Hout; try congruence; try reflexivity.
    destruct Hmodel; congruence.
Qed.

Lemma speed_is_validated_witness :
  (exists self' w' message,
     generate_audio Sample.env new_bridge (py "hello") (py "expr-voice-3-m")
       Sample.float_3_0 (py "out.wav") Sample.world
     = (Ret (false, self'), w')
     /\ w_stderr w' = [Json (error_report message)]
     /\ w_generated w' = [])
  /\ speed_in_range Sample.float_1_5 = true.
Proof.
  destruct (speed_is_validated Sample.env new_bridge (py "hello")
              (py "expr-voice-3-m") Sample.float_3_0 (py "out.wav") Sample.world)
    as (Hreject & _).
  destruct (speed_is_validated Sample.env new_bridge (py "hello")
              (py "expr-voice-3-m") Sample.float_1_5 (py "out.wav") Sample.world)
    as (_ & Haccept & _).
  split.
  - destruct Hreject as (self' & w' & message & H1 & H2 & _ & H4 & _).
    + right. reflexivity.
    + exists self', w', message. auto.
  - apply Haccept. split; reflexivity.
Defined.

(** C10. [generate_audio] returns [True] only with the output file in
    place and not empty, and then the one line it has printed is the
    success report with [file_size] the size of that file (hence
    positive) and [text_length] the length of the text.  Otherwise it
    returns [False], prints no success report and prints one error
    report; this is what happens when the file is missing or empty. *)
Theorem success_only_after_verification (E : Env) (self : CarelessKittenBridge)
    (text voice : pystr) (speed : spec_float) (output_path : pystr)
    (w : World) :
  exists ok self' w',
    generate_audio E self text voice speed output_path w = (Ret (ok, self'), w')
    /\ (ok = true ->
        exists size,
          w_files w' !! output_path = Some size /\ (0 < size)%N
          /\ w_stdout w'
             = w_stdout w
               ++ [Json (JObj [ (py "success", JBool true);
                                (py "output_path", JStr output_path);
                                (py "file_size", JInt (Z.of_N size));
                                (py "voice", JStr voice);
                                (py "speed", JFloat speed);
                                (py "text_length", JInt (len text)) ])]
          /\ w_stderr w' = w_stderr w)
    /\ (ok = false ->
        w_stdout w' = w_stdout w
        /\ exists message,
             w_stderr w' = w_stderr w ++ [Json (error_report message)])
    /\ (w_files w' !! output_path = None
        \/ w_files w' !! output_path = Some 0%N -> ok = false).
Proof.
  destruct (generate_audio_outcome E self text voice speed output_path w)
    as (ok & self' & w' & Hrun & _ & Hout).
  apply audio_outcome_frame in Hout as (Hreport & _ & Hfile).
  exists ok, self', w'. split; [exact Hrun|].
  split; [|split; [|exact Hfile]]; intros ->; exact Hreport.
Qed.

Lemma success_only_after_verification_witness :
  exists self' w',
    generate_audio Sample.env new_bridge (py "hello") (py "expr-voice-3-m")
      Sample.float_1_5 (py "out.wav") Sample.world = (Ret (true, self'), w')
    /\ w_files w' !! py "out.wav" = Some 2048%N
    /\ dict_get (py "file_size")
         [ (py "success", JBool true); (py "output_path", JStr (py "out.wav"));
           (py "file_size", JInt 2048); (py "voice", JStr (py "expr-voice-3-m"));
           (py "speed", JFloat Sample.float_1_5); (py "text_length", JInt 5) ]
       = Some (JInt 2048)
    /\ w_stdout w'
       = [Json (JObj
           [ (py "success", JBool true); (py "output_path", JStr (py "out.wav"));
             (py "file_size", JInt 2048); (py "voice", JStr (py "expr-voice-3-m"));
             (py "speed", JFloat Sample.float_1_5); (py "text_length", JInt 5) ])].
Proof.
  destruct (success_only_after_verification Sample.env new_bridge (py "hello")
              (py "expr-voice-3-m") Sample.float_1_5 (py "out.wav") Sample.world)
    as (ok & self' & w' & Hrun & Hok & _ & _).
  assert (Hval : generate_audio Sample.env new_bridge (py "hello")
                   (py "expr-voice-3-m") Sample.float_1_5 (py "out.wav")
                   Sample.world
                 = (Ret (true, {| model := Some (py "KittenML/kitten-tts-nano-0.1");
                                  supported_voices := supported_voices new_bridge |}),
                    snd (generate_audio Sample.env new_bridge (py "hello")
                           (py "expr-voice-3-m") Sample.float_1_5 (py "out.wav")
                           Sample.world)))
    by (vm_compute; reflexivity).
  rewrite Hval in Hrun. injection Hrun as <- <- <-.
  destruct (Hok eq_refl) as (size & Hfile & Hpos & Hout & _).
  eexists _, _. split; [exact Hval|].
  assert (Hsize : w_files (snd (generate_audio Sample.env new_bridge (py "hello")
                     (py "expr-voice-3-m") Sample.float_1_5 (py "out.wav")
                     Sample.world)) !! py "out.wav" = Some 2048%N)
    by (vm_compute; reflexivity).
  split; [exact Hsize|]. split; [vm_compute; reflexivity|].
  rewrite Hsize in Hfile. injection Hfile as <-. exact Hout.
Defined.

Example missing_file_is_an_error :
  fst (generate_audio Sample.env_silent new_bridge (py "hello")
         (py "expr-voice-3-m") Sample.float_1_5 (py "out.wav") Sample.world)
  = Ret (false, {| model := Some (py "KittenML/kitten-tts-nano-0.1");
                   supported_voices := supported_voices new_bridge |})
  /\ w_stderr (snd (generate_audio Sample.env_silent new_bridge (py "hello")
                      (py "expr-voice-3-m") Sample.float_1_5 (py "out.wav")
                      Sample.world))
     = [Json (error_report (py "Output file not created: out.wav"))].
Proof. split; vm_compute; reflexivity. Qed.



(** ** Exit status and reports (C2, C3) *)

Lemma app_one_neq {A : Type} (l : list A) (x : A) : l ++ [x] <> l.
Proof.
  intros H. apply (f_equal (@length A)) in H. rewrite length_app in H.
  simpl in H. lia.
Qed.

Lemma audio_report_success (output_path : pystr) (size : Z) (voice : pystr)
    (speed : spec_float) (text : pystr) :
  success_report (audio_report output_path size voice speed text).
Proof. eexists. split; reflexivity. Qed.

Lemma voices_report_success : success_report voices_report.
Proof. eexists. split; reflexivity. Qed.

Lemma error_report_failure (message : pystr) : failure_report (error_report message).
Proof. now exists message. Qed.

Lemma audio_outcome_report (E : Env) (self : CarelessKittenBridge)
    (text voice : pystr) (speed : spec_float) (output_path : pystr)
    (w : World) (ok : bool) (w' : World) :
  audio_outcome E self text voice speed output_path w ok w' ->
  one_report ok w w'.
Proof.
  intros H. apply audio_outcome_frame in H as (H & _).
  destruct ok; unfold one_report.
  - destruct H as (size & _ & _ & Hout & Herr).
    eexists. split; [apply audio_report_success|]. split; [exact Hout|exact Herr].
  - destruct H as (Hout & message & Herr).
    eexists. split; [apply error_report_failure|]. split; [exact Herr|exact Hout].
Qed.

(** The four kinds of end of a run, by what they leave on the streams. *)
Lemma script_outcome_streams (E : Env) (argv : list pystr) (w : World)
    (r : result unit) (w' : World) :
  script_outcome E argv w r w' ->
  (exit_status r = Some 2 /\ import_kittentts E = None
   /\ (exists err, parse_known E (main_parser E) argv = ParseError err
                   /\ w' = print_stderr (Text (format_usage E err)) w))
  \/ (exit_status r = Some 0 /\ import_kittentts E = None
      /\ parse_known E (main_parser E) argv = HelpExit
      /\ w' = print_stdout (Text (format_help E)) w)
  \/ (exists ok : bool, exit_status r = Some (if ok then 0 else 1)
                 /\ (import_kittentts E <> None
                     \/ exists ns, parse_known E (main_parser E) argv = Parsed ns)
                 /\ one_report ok w w').
Proof.
  intros H. destruct H.
  - right. right. exists false. split; [reflexivity|]. split; [left; congruence|].
    eexists. split; [apply error_report_failure|]. split; reflexivity.
  - left. split; [reflexivity|]. split; [assumption|]. eauto.
  - right. left. auto.
  - right. right. exists true. split; [reflexivity|]. split; [right; eauto|].
    eexists. split; [apply voices_report_success|]. split; reflexivity.
  - right. right. exists false. split; [reflexivity|]. split; [right; eauto|].
    eexists. split; [apply error_report_failure|]. split; reflexivity.
  - right. right. exists ok. split; [now destruct ok|]. split; [right; eauto|].
    eapply audio_outcome_report; eassumption.
Qed.

(** The status of a run by its cause. *)
Lemma script_outcome_causes (E : Env) (argv : list pystr) (w : World)
    (r : result unit) (w' : World) (code : Z) :
  script_outcome E argv w r w' ->
  exit_status r = Some code ->
  (forall e, import_kittentts E = Some e -> code = 1)
  /\ (import_kittentts E = None ->
      forall ns, parse_known E (main_parser E) argv = Parsed ns ->
        (args_list_voices ns = true -> code = 0)
        /\ (args_list_voices ns = false ->
            args_text ns = None \/ args_text ns = Some []
            \/ args_output ns = None \/ args_output ns = Some [] ->
            code = 1)
        /\ (args_list_voices ns = false ->
            forall text output,
              args_text ns = Some text -> args_output ns = Some output ->
              truthy text = true -> truthy output = true ->
              exists ok self' w1,
                generate_audio E new_bridge text (args_voice ns)
                  (args_speed ns) output w = (Ret (ok, self'), w1)
                /\ code = if ok then 0 else 1)).
Proof.
  intros H Hs. destruct H; simpl in Hs; injection Hs as <-.
  - split; [reflexivity|congruence].
  - split; [congruence|]. intros _ ns Hns. congruence.
  - split; [congruence|]. intros _ ns Hns. congruence.
  - split; [congruence|]. intros _ ns' Hns.
    assert (ns' = ns) by congruence. subst ns'.
    split; [reflexivity|]. split; congruence.
  - split; [congruence|]. intros _ ns' Hns.
    assert (ns' = ns) by congruence. subst ns'.
    split; [congruence|]. split; [reflexivity|].
    intros _ text output Ht Ho Htt Hto.
    specialize (H2 text output Ht Ho). rewrite Htt, Hto in H2. discriminate.
  - split; [congruence|]. intros _ ns' Hns.
    assert (ns' = ns) by congruence. subst ns'.
    split; [congruence|]. split.
    + intros _ [Hx|[Hx|[Hx|Hx]]]; rewrite Hx in *;
        try discriminate.
      * injection H2 as <-. discriminate.
      * injection H3 as <-. discriminate.
    + intros _ text' output' Ht Ho _ _.
      assert (text' = text) by congruence.
      assert (output' = output) by congruence. subst.
      exists ok, self', w'. split; [assumption|reflexivity].
Qed.

(** C2, as the code has it.  A run ends with status 0, 1 or 2 and no
    other: 0 exactly when it has printed a success report or the help
    on standard output, 1 exactly when it has printed an error report on
    standard error, and 2 exactly when argparse has rejected the command
    line.  By cause: a failed import in the set-up gives 1; listed
    voices give 0; a missing or empty --text or --output gives 1; and
    otherwise the status is 0 or 1 as [generate_audio] returns [True] or
    [False]. *)
Theorem exit_status_is_0_1_or_2 (E : Env) (sys_modules : gmap string pyobj)
    (argv : list pystr) (w : World) :
  exists r w' code,
    script E sys_modules argv w = (r, w')
    /\ exit_status r = Some code
    /\ (code = 0 \/ code = 1 \/ code = 2)
    /\ (code = 0 <->
        (exists j, success_report j /\ w_stdout w' = w_stdout w ++ [Json j])
        \/ w_stdout w' = w_stdout w ++ [Text (format_help E)])
    /\ (code = 1 <->
        exists j, failure_report j /\ w_stderr w' = w_stderr w ++ [Json j])
    /\ (code = 2 <->
        import_kittentts E = None
        /\ exists err, parse_known E (main_parser E) argv = ParseError err)
    /\ (forall e, import_kittentts E = Some e -> code = 1)
    /\ (import_kittentts E = None ->
        forall ns, parse_known E (main_parser E) argv = Parsed ns ->
          (args_list_voices ns = true -> code = 0)
          /\ (args_list_voices ns = false ->
              args_text ns = None \/ args_text ns = Some []
              \/ args_output ns = None \/ args_output ns = Some [] ->
              code = 1)
          /\ (args_list_voices ns = false ->
              forall text output,
                args_text ns = Some text -> args_output ns = Some output ->
                truthy text = true -> truthy output = true ->
                exists ok self' w1,
                  generate_audio E new_bridge text (args_voice ns)
                    (args_speed ns) output w = (Ret (ok, self'), w1)
                  /\ code = if ok then 0 else 1)).
Proof.
  destruct (script_run E sys_modules argv w) as (r & w' & Hrun & Hout).
  exists r, w'.
  assert (Hcauses := script_outcome_causes E argv w r w').
  specialize (fun code => Hcauses code Hout).
  cut (exists code,
    exit_status r = Some code
    /\ (code = 0 \/ code = 1 \/ code = 2)
    /\ (code = 0 <->
        (exists j, success_report j /\ w_stdout w' = w_stdout w ++ [Json j])
        \/ w_stdout w' = w_stdout w ++ [Text (format_help E)])
    /\ (code = 1 <->
        exists j, failure_report j /\ w_stderr w' = w_stderr w ++ [Json j])
    /\ (code = 2 <->
        import_kittentts E = None
        /\ exists err, parse_known E (main_parser E) argv = ParseError err)).
  { intros (code & Hs & H012 & H0 & H1 & H2). exists code.
    split; [exact Hrun|]. split; [exact Hs|]. split; [exact H012|].
    split; [exact H0|]. split; [exact H1|]. split; [exact H2|].
    exact (Hcauses code Hs). }
  clear Hcauses.
  apply script_outcome_streams in Hout
    as [(Hs & Himp & err & Hparse & ->)
       |[(Hs & Himp & Hparse & ->)|(ok & Hs & Hwhy & Hrep)]].
  - exists 2. split; [exact Hs|]. split; [auto|]. simpl.
    split; [|split].
    + split; [discriminate|]. intros [(j & _ & H)|H];
        symmetry in H; now apply app_one_neq in H.
    + split; [discriminate|]. intros (j & _ & H).
      apply app_inv_head in H. discriminate.
    + split; eauto.
  - exists 0. split; [exact Hs|]. split; [auto|]. simpl.
    split; [|split].
    + split; auto.
    + split; [discriminate|]. intros (j & _ & H).
      symmetry in H. now apply app_one_neq in H.
    + split; [discriminate|]. intros (_ & err & H). congruence.
  - exists (if ok then 0 else 1). split; [exact Hs|].
    split; [destruct ok; auto|].
    assert (Hnot2 : ~ (import_kittentts E = None
                       /\ exists err, parse_known E (main_parser E) argv
                                      = ParseError err)).
    { intros (Himp & err & Hparse). destruct Hwhy as [H|(ns & H)]; congruence. }
    destruct ok; unfold one_report in Hrep; destruct Hrep as (j & Hj & H1 & H2).
    + split; [|split].
      * split; eauto.
      * split; [discriminate|]. intros (j' & _ & H). rewrite H2 in H.
        symmetry in H. now apply app_one_neq in H.
      * split; [discriminate|]. intros H. now apply Hnot2 in H.
    + split; [|split].
      * split; [discriminate|]. rewrite H2. intros [(j' & _ & H)|H];
          symmetry in H; now apply app_one_neq in H.
      * split; eauto.
      * split; [discriminate|]. intros H. now apply Hnot2 in H.
Qed.

Lemma exit_status_is_0_1_or_2_witness :
  exit_status (fst (script Sample.env ∅ [py "--list-voices"] Sample.world))
  = Some 0.
Proof.
  destruct (exit_status_is_0_1_or_2 Sample.env ∅ [py "--list-voices"]
              Sample.world) as (r & w' & code & Hrun & Hs & _ & H0 & _).
  rewrite Hrun. simpl. rewrite Hs. f_equal. apply H0. left.
  exists voices_report. split; [apply voices_report_success|].
  apply (f_equal snd) in Hrun. simpl in Hrun. subst w'. vm_compute. reflexivity.
Defined.

(** C2, as it is worded, fails on a command line that argparse rejects:
    with [--speed fast] the status is 2. *)
Lemma exit_status_two_occurs :
  exit_status (fst (script Sample.env ∅ [py "--speed"; py "fast"] Sample.world))
  = Some 2
  /\ ~ (exit_status (fst (script Sample.env ∅ [py "--speed"; py "fast"]
                            Sample.world)) = Some 0
        \/ exit_status (fst (script Sample.env ∅ [py "--speed"; py "fast"]
                               Sample.world)) = Some 1).
Proof.
  assert (H : exit_status (fst (script Sample.env ∅ [py "--speed"; py "fast"]
                                  Sample.world)) = Some 2)
    by (vm_compute; reflexivity).
  split; [exact H|]. rewrite H. intros [?|?]; discriminate.
Qed.

(** C3, as the code has it.  [generate_audio] and [initialize_model]
    never raise: an exception of the model becomes an error report.  A
    run of the script never ends with an exception; when the set-up
    fails or argparse accepts the command line it prints exactly one
    line, a JSON object with [success]: on standard output with [true]
    and status 0, or on standard error with [false], a message and
    status 1.  When argparse stops the run (usage error, help) the one
    line printed is argparse's text, not JSON. *)
Theorem outcomes_are_json_reports (E : Env) (sys_modules : gmap string pyobj)
    (argv : list pystr) (self : CarelessKittenBridge) (text voice : pystr)
    (speed : spec_float) (output_path : pystr) (w : World) :
  (exists ok self' w',
     generate_audio E self text voice speed output_path w = (Ret (ok, self'), w')
     /\ one_report ok w w')
  /\ (exists ok self' w',
        initialize_model E self w = (Ret (ok, self'), w')
        /\ (if ok then w' = w else one_report false w w'))
  /\ (exists r w',
        script E sys_modules argv w = (r, w')
        /\ (forall e, r <> Raise e) /\ r <> Block
        /\ (import_kittentts E <> None
            \/ (exists ns, parse_known E (main_parser E) argv = Parsed ns) ->
            exists ok, one_report ok w w'
                       /\ exit_status r = Some (if ok then 0 else 1))
        /\ (import_kittentts E = None ->
            parse_known E (main_parser E) argv = HelpExit ->
            w' = print_stdout (Text (format_help E)) w)
        /\ (import_kittentts E = None ->
            forall err, parse_known E (main_parser E) argv = ParseError err ->
                        w' = print_stderr (Text (format_usage E err)) w)).
Proof.
  split; [|split].
  - destruct (generate_audio_outcome E self text voice speed output_path w)
      as (ok & self' & w' & Hrun & _ & Hout).
    exists ok, self', w'. split; [exact Hrun|].
    eapply audio_outcome_report; eassumption.
  - unfold initialize_model, KittenTTS, try_except, bind.
    destruct (kitten_init E _) as [e|].
    + exists false, self. eexists. split; [reflexivity|].
      eexists. split; [apply error_report_failure|]. split; reflexivity.
    + exists true. eexists. exists w. split; reflexivity.
  - destruct (script_run E sys_modules argv w) as (r & w' & Hrun & Hout).
    exists r, w'. split; [exact Hrun|].
    split; [intros e ->; inversion Hout|].
    split; [intros ->; inversion Hout|].
    apply script_outcome_streams in Hout
      as [(Hs & Himp & err & Hparse & ->)
         |[(Hs & Himp & Hparse & ->)|(ok & Hs & Hwhy & Hrep)]].
    + split; [intros [H|(ns & H)]; congruence|].
      split; [congruence|]. intros _ err' H. congruence.
    + split; [intros [H|(ns & H)]; congruence|].
      split; [reflexivity|]. intros _ err' H. congruence.
    + split; [intros _; exists ok; auto|].
      split; [intros Hi Hp|intros Hi err Hp];
        destruct Hwhy as [H|(ns & H)]; congruence.
Qed.

Lemma outcomes_are_json_reports_witness :
  exists ok,
    one_report ok Sample.world
      (snd (script Sample.env ∅ [py "--list-voices"] Sample.world))
    /\ exit_status (fst (script Sample.env ∅ [py "--list-voices"] Sample.world))
       = Some (if ok then 0 else 1).
Proof.
  destruct (outcomes_are_json_reports Sample.env ∅ [py "--list-voices"]
              new_bridge (py "hello") (py "expr-voice-2-f") float_1_0
              (py "out.wav") Sample.world)
    as (_ & _ & r & w' & Hrun & _ & _ & Hreport & _).
  rewrite Hrun. simpl. apply Hreport. right.
  exists (set_list_voices defaults). vm_compute. reflexivity.
Defined.

(** C3, as it is worded, fails on a command line that argparse rejects:
    with [--bogus] the only line printed is the usage text. *)
Lemma usage_error_is_not_json :
  w_stderr (snd (script Sample.env ∅ [py "--bogus"] Sample.world))
  = [Text (py "usage: kitten_tts_bridge.py [-h] ...")]
  /\ w_stdout (snd (script Sample.env ∅ [py "--bogus"] Sample.world)) = []
  /\ ~ exists ok,
         one_report ok Sample.world
           (snd (script Sample.env ∅ [py "--bogus"] Sample.world)).
Proof.
  assert (He : w_stderr (snd (script Sample.env ∅ [py "--bogus"] Sample.world))
               = [Text (py "usage: kitten_tts_bridge.py [-h] ...")])
    by (vm_compute; reflexivity).
  assert (Ho : w_stdout (snd (script Sample.env ∅ [py "--bogus"] Sample.world)) = [])
    by (vm_compute; reflexivity).
  split; [exact He|]. split; [exact Ho|].
  intros ([|] & j & _ & H1 & H2).
  - rewrite Ho in H1. discriminate.
  - rewrite He in H1. discriminate.
Qed.

(** ** The flags (C4) *)







(** ** The eSpeak environment *)

Lemma split_on_from_nonempty (sep : N) (s cur : pystr) :
  split_on_from sep cur s <> [].
Proof.
  revert cur. induction s as [|c s IH]; intros cur; simpl; [discriminate|].
  destruct (c =? sep)%N; [discriminate|apply IH].
Qed.

Lemma join_cons (sep p : pystr) (rest : list pystr) :
  rest <> [] -> join sep (p :: rest) = p ++ sep ++ join sep rest.
Proof. destruct rest; [congruence|reflexivity]. Qed.

(** Joining the parts of a split gives the string back. *)
Lemma join_split_on_from (sep : N) (s cur : pystr) :
  join [sep] (split_on_from sep cur s) = rev cur ++ s.
Proof.
  revert cur. induction s as [|c s IH]; intros cur; simpl.
  - now rewrite app_nil_r.
  - destruct (N.eqb_spec c sep) as [->|Hne].
    + rewrite join_cons by apply split_on_from_nonempty.
      rewrite IH. reflexivity.
    + rewrite IH. simpl. now rewrite <- app_assoc.
Qed.

Lemma split_on_from_parts (sep : N) (s cur : pystr) :
  ~ In sep cur ->
  List.Forall (fun p => ~ In sep p) (split_on_from sep cur s).
Proof.
  revert cur. induction s as [|c s IH]; intros cur Hcur; simpl.
  - constructor; [|constructor]. now rewrite <- in_rev.
  - destruct (N.eqb_spec c sep) as [->|Hne].
    + constructor; [now rewrite <- in_rev|]. apply IH. intros [].
    + apply IH. intros [H|H]; [congruence|tauto].
Qed.

Lemma split_on_from_app (sep : N) (p s cur : pystr) :
  ~ In sep p ->
  split_on_from sep cur (p ++ s) = split_on_from sep (rev p ++ cur) s.
Proof.
  revert cur. induction p as [|c p IH]; intros cur Hp; [reflexivity|].
  simpl. destruct (N.eqb_spec c sep) as [->|Hne]; [exfalso; apply Hp; now left|].
  rewrite IH by (intros H; apply Hp; now right).
  now rewrite <- app_assoc.
Qed.

(** Splitting a join of parts without the separator gives the parts
    back. *)
Lemma split_on_join (sep : N) (parts : list pystr) :
  parts <> [] ->
  List.Forall (fun p => ~ In sep p) parts ->
  split_on sep (join [sep] parts) = parts.
Proof.
  unfold split_on. induction parts as [|p rest IH]; [congruence|].
  intros _ Hparts. inversion Hparts as [|? ? Hp Hrest]; subst.
  destruct rest as [|q rest].
  - simpl. pose proof (split_on_from_app sep p [] [] Hp) as H.
    rewrite app_nil_r in H. rewrite H.
    simpl. now rewrite app_nil_r, rev_involutive.
  - rewrite join_cons by discriminate.
    rewrite split_on_from_app by assumption. cbn [app split_on_from].
    rewrite N.eqb_refl, app_nil_r, rev_involutive. f_equal.
    apply IH; [discriminate|assumption].
Qed.

Lemma filter_idempotent {A : Type} (f : A -> bool) (l : list A) :
  List.filter f (List.filter f l) = List.filter f l.
Proof.
  induction l as [|x l IH]; [reflexivity|]. simpl.
  destruct (f x) eqn:Hx; [|exact IH]. simpl. now rewrite Hx, IH.
Qed.

Lemma filter_forall {A : Type} (f : A -> bool) (P : A -> Prop) (l : list A) :
  List.Forall P l -> List.Forall P (List.filter f l).
Proof.
  induction 1 as [|x l Hx Hl IH]; [constructor|]. simpl.
  destruct (f x); [constructor|]; assumption.
Qed.


Lemma keep_path_part_drops (dir : pystr) :
  contains (py "espeak") dir = true -> keep_path_part dir = false.
Proof. unfold keep_path_part. intros ->. apply andb_false_r. Qed.

Lemma split_new_path (dir : pystr) (sep : N) (current_path : pystr) :
  ~ In sep dir ->
  split_on sep (dir ++ [sep] ++ join [sep]
                  (List.filter keep_path_part (split_on sep current_path)))
  = dir :: kept_parts sep current_path.
Proof.
  intros Hdir. unfold split_on at 1. rewrite split_on_from_app by assumption.
  cbn [app split_on_from]. rewrite N.eqb_refl, app_nil_r, rev_involutive.
  f_equal. unfold kept_parts.
  destruct (List.filter keep_path_part (split_on sep current_path))
    as [|q rest] eqn:Hf; [reflexivity|].
  fold (split_on sep (join [sep] (q :: rest))).
  apply split_on_join; [discriminate|]. rewrite <- Hf.
  apply filter_forall. apply split_on_from_parts. intros [].
Qed.


Lemma join_kept_parts (sep : N) (current_path : pystr) :
  join [sep] (List.filter keep_path_part (kept_parts sep current_path))
  = join [sep] (List.filter keep_path_part (split_on sep current_path)).
Proof.
  unfold kept_parts.
  destruct (List.filter keep_path_part (split_on sep current_path))
    as [|q rest] eqn:Hf; [reflexivity|].
  rewrite <- Hf. now rewrite filter_idempotent.
Qed.

(** The new [PATH] in closed form. *)
Lemma new_path_value (E : Env) (espeak_dir : pystr) (pathsep : N)
    (files : gmap pystr N) (p : Process) :
  is_Some (files !! espeak_exe E) ->
  environ (configure_espeak E espeak_dir pathsep files p) !! "PATH"
  = Some (espeak_dir ++ [pathsep]
          ++ join [pathsep]
               (List.filter keep_path_part
                  (split_on pathsep (environ_get (environ p) "PATH" [])))).
Proof.
  intros Hexe. unfold configure_espeak.
  rewrite bool_decide_eq_true_2 by assumption.
  assert (Hget : forall m : gmap string pystr,
            environ_get (if bool_decide (is_Some (files !! espeak_data E))
                         then <["ESPEAK_DATA_PATH" := espeak_data E]>
                                (<["ESPEAK_EXE" := espeak_exe E]> m)
                         else <["ESPEAK_EXE" := espeak_exe E]> m) "PATH" []
            = environ_get m "PATH" []).
  { intros m. unfold environ_get. destruct (bool_decide _);
      now rewrite ?lookup_insert_ne by done. }
  cbn [environ]. rewrite Hget.
  destruct (bool_decide (is_Some (files !! espeak_data E)));
    now rewrite ?lookup_insert_ne, lookup_insert_eq by done.
Qed.



(** Running the block a second time changes nothing (the directory of
    the bundled eSpeak has "espeak" in its name). *)
Theorem configure_espeak_idempotent (E : Env) (espeak_dir : pystr)
    (pathsep : N) (files : gmap pystr N) (p : Process) :
  contains (py "espeak") espeak_dir = true ->
  ~ In pathsep espeak_dir ->
  configure_espeak E espeak_dir pathsep files
    (configure_espeak E espeak_dir pathsep files p)
  = configure_espeak E espeak_dir pathsep files p.
Proof.
  intros Hname Hdir.
  destruct (decide (is_Some (files !! espeak_exe E))) as [Hexe|Hexe].
  2:{ unfold configure_espeak. now rewrite !bool_decide_eq_false_2 by assumption. }
  pose proof (new_path_value E espeak_dir pathsep files p Hexe) as Hpath.
  pose proof (new_path_value E espeak_dir pathsep files
                (configure_espeak E espeak_dir pathsep files p) Hexe) as Hpath2.
  assert (Hold : environ_get
                   (environ (configure_espeak E espeak_dir pathsep files p))
                   "PATH" []
                 = espeak_dir ++ [pathsep]
                   ++ join [pathsep]
                        (List.filter keep_path_part
                           (split_on pathsep (environ_get (environ p) "PATH" []))))
    by (unfold environ_get at 1; now rewrite Hpath).
  rewrite Hold, split_new_path in Hpath2 by assumption.
  cbn [List.filter] in Hpath2.
  rewrite keep_path_part_drops, join_kept_parts in Hpath2 by assumption.
  rewrite <- Hpath in Hpath2.
  set (p1 := configure_espeak E espeak_dir pathsep files p) in *.
  assert (Hsys : sys_path (configure_espeak E espeak_dir pathsep files p1)
                 = sys_path p1).
  { unfold p1, configure_espeak. rewrite !bool_decide_eq_true_2 by assumption.
    cbn [sys_path]. apply filter_idempotent. }
  assert (Henv : environ (configure_espeak E espeak_dir pathsep files p1)
                 = environ p1).
  { apply map_eq. intros k.
    destruct (decide (k = "PATH")) as [->|Hk]; [exact Hpath2|].
    unfold p1, configure_espeak. rewrite !bool_decide_eq_true_2 by assumption.
    cbn [environ].
    destruct (bool_decide (is_Some (files !! espeak_data E)));
      rewrite !lookup_insert; repeat case_decide; congruence. }
  destruct (configure_espeak E espeak_dir pathsep files p1) as [e s'].
  destruct p1 as [e1 s1]. simpl in *. congruence.
Qed.

Lemma configure_espeak_idempotent_witness :
  configure_espeak Sample.env (py "python/espeak") 59 SampleRun.files
    (configure_espeak Sample.env (py "python/espeak") 59 SampleRun.files
       SampleRun.process)
  = configure_espeak Sample.env (py "python/espeak") 59 SampleRun.files
      SampleRun.process.
Proof.
  apply configure_espeak_idempotent.
  - vm_compute. reflexivity.
  - vm_compute. intuition discriminate.
Defined.

(** Without the bundled executable the block changes nothing.  With it,
    both executable variables hold its path, the two data variables are
    set when the data directory exists and left as they were when it
    does not, and no variable other than these and [PATH] is touched. *)
Theorem configure_espeak_frame (E : Env) (espeak_dir : pystr) (pathsep : N)
    (files : gmap pystr N) (p : Process) :
  (files !! espeak_exe E = None ->
   configure_espeak E espeak_dir pathsep files p = p)
  /\ (is_Some (files !! espeak_exe E) ->
      environ (configure_espeak E espeak_dir pathsep files p) !! "ESPEAK_EXE"
      = Some (espeak_exe E)
      /\ environ (configure_espeak E espeak_dir pathsep files p)
           !! "PHONEMIZER_ESPEAK_EXECUTABLE" = Some (espeak_exe E)
      /\ (forall key,
            In key ["ESPEAK_DATA_PATH"; "PHONEMIZER_ESPEAK_PATH"] ->
            environ (configure_espeak E espeak_dir pathsep files p) !! key
            = if bool_decide (is_Some (files !! espeak_data E))
              then Some (espeak_data E)
              else environ p !! key)
      /\ (forall key,
            ~ In key espeak_variables ->
            environ (configure_espeak E espeak_dir pathsep files p) !! key
            = environ p !! key)).
Proof.
  split.
  - intros Hno. unfold configure_espeak.
    rewrite bool_decide_eq_false_2; [reflexivity|].
    rewrite Hno. now intros [? ?].
  - intros Hexe. unfold configure_espeak.
    rewrite bool_decide_eq_true_2 by assumption. cbn [environ].
    repeat split.
    + destruct (bool_decide _); now rewrite ?lookup_insert_ne, lookup_insert_eq by done.
    + destruct (bool_decide _); now rewrite ?lookup_insert_ne, lookup_insert_eq by done.
    + intros key [<-|[<-|[]]]; destruct (bool_decide _);
        now rewrite ?lookup_insert_eq, ?lookup_insert_ne, ?lookup_insert_eq by done.
    + intros key Hkey. unfold espeak_variables in Hkey. simpl in Hkey.
      destruct (bool_decide _); rewrite !lookup_insert_ne; intuition congruence.
Qed.

Lemma configure_espeak_frame_witness :
  environ (configure_espeak Sample.env (py "python/espeak") 59 SampleRun.files
             SampleRun.process) !! "HOME" = Some (py "C:\Users\me")
  /\ environ (configure_espeak Sample.env (py "python/espeak") 59
                SampleRun.files SampleRun.process) !! "ESPEAK_DATA_PATH" = None
  /\ configure_espeak Sample.env (py "python/espeak") 59 ∅ SampleRun.process
     = SampleRun.process.
Proof.
  destruct (configure_espeak_frame Sample.env (py "python/espeak") 59
              SampleRun.files SampleRun.process) as (_ & H).
  destruct H as (_ & _ & Hdata & Hother); [vm_compute; eauto|].
  destruct (configure_espeak_frame Sample.env (py "python/espeak") 59
              ∅ SampleRun.process) as (Hnone & _).
  split; [|split].
  - rewrite Hother; [reflexivity|]. vm_compute. intuition discriminate.
  - rewrite Hdata; [reflexivity|now left].
  - apply Hnone. reflexivity.
Defined.

(** The filter of [sys.path] keeps the order and adds nothing.  Every
    path with "Lib\site-packages" stays, also one under AppData; a path
    that goes mentions AppData or site-packages; a path that stays and
    mentions either of them is a "Lib\site-packages" path. *)
Theorem sys_path_filter (E : Env) (espeak_dir : pystr) (pathsep : N)
    (files : gmap pystr N) (p : Process) (path : pystr) :
  is_Some (files !! espeak_exe E) ->
  sublist (sys_path (configure_espeak E espeak_dir pathsep files p)) (sys_path p)
  /\ (In path (sys_path p) ->
      contains (py "Lib\site-packages") path = true ->
      In path (sys_path (configure_espeak E espeak_dir pathsep files p)))
  /\ (In path (sys_path p) ->
      ~ In path (sys_path (configure_espeak E espeak_dir pathsep files p)) ->
      contains (py "AppData") path = true
      \/ contains (py "site-packages") path = true)
  /\ (In path (sys_path (configure_espeak E espeak_dir pathsep files p)) ->
      contains (py "AppData") path = true
      \/ contains (py "site-packages") path = true ->
      contains (py "Lib\site-packages") path = true).
Proof.
  intros Hexe. unfold configure_espeak.
  rewrite bool_decide_eq_true_2 by assumption. cbn [sys_path].
  split; [|split; [|split]].
  - induction (sys_path p) as [|x l IH]; [constructor|]. simpl.
    destruct (keep_sys_path x); now constructor.
  - intros Hin Hlib. apply filter_In. split; [exact Hin|].
    unfold keep_sys_path. rewrite Hlib. apply orb_true_r.
  - intros Hin Hout. rewrite filter_In in Hout.
    destruct (contains (py "AppData") path) eqn:Ha; [now left|].
    destruct (contains (py "site-packages") path) eqn:Hs; [now right|].
    exfalso. apply Hout. split; [exact Hin|].
    unfold keep_sys_path. now rewrite Ha, Hs.
  - intros Hin Hor. apply filter_In in Hin as [_ Hk].
    unfold keep_sys_path in Hk.
    destruct (contains (py "Lib\site-packages") path); [reflexivity|].
    rewrite orb_false_r in Hk. apply andb_true_iff in Hk as [Ha Hs].
    apply negb_true_iff in Ha, Hs. destruct Hor; congruence.
Qed.

Lemma sys_path_filter_witness :
  In (py "C:\Users\me\AppData\Local\Python\Lib\site-packages")
     (sys_path (configure_espeak Sample.env (py "python/espeak") 59
                  SampleRun.files
                  {| environ := ∅;
                     sys_path :=
                       [py "C:\Users\me\AppData\Local\Python\Lib\site-packages"] |})).
Proof.
  destruct (sys_path_filter Sample.env (py "python/espeak") 59 SampleRun.files
              {| environ := ∅;
                 sys_path :=
                   [py "C:\Users\me\AppData\Local\Python\Lib\site-packages"] |}
              (py "C:\Users\me\AppData\Local\Python\Lib\site-packages"))
    as (_ & H & _).
  - vm_compute. eauto.
  - apply H; [now left|vm_compute; reflexivity].
Defined.

(** ** Cleaning eSpeak's output (lines 89-92) *)

Lemma no_space_rev (s : pystr) : no_space (rev s) = no_space s.
Proof.
  unfold no_space. induction s as [|c s IH]; [reflexivity|].
  simpl. rewrite forallb_app, IH. simpl. rewrite andb_true_r. apply andb_comm.
Qed.

Lemma all_space_rev (s : pystr) : all_space (rev s) = all_space s.
Proof.
  unfold all_space. induction s as [|c s IH]; [reflexivity|].
  simpl. rewrite forallb_app, IH. simpl. rewrite andb_true_r. apply andb_comm.
Qed.

Lemma split_from_words (s cur : pystr) :
  no_space cur = true -> List.Forall is_word (split_from cur s).
Proof.
  revert cur. induction s as [|c s IH]; intros cur Hcur; simpl.
  - destruct cur as [|x cur]; [constructor|]. constructor; [|constructor].
    split; [|now rewrite no_space_rev].
    intros H. apply (f_equal (@length N)) in H. rewrite length_rev in H.
    discriminate.
  - destruct (isspace c) eqn:Hc.
    + destruct cur as [|x cur]; [now apply IH|].
      constructor; [|now apply IH]. split; [|now rewrite no_space_rev].
      intros H. apply (f_equal (@length N)) in H. rewrite length_rev in H.
      discriminate.
    + apply IH. simpl. now rewrite Hc.
Qed.

Lemma split_from_word (w s cur : pystr) :
  no_space w = true ->
  split_from cur (w ++ s) = split_from (rev w ++ cur) s.
Proof.
  revert cur. induction w as [|c w IH]; intros cur Hw; [reflexivity|].
  simpl in Hw. apply andb_true_iff in Hw as [Hc Hw].
  apply negb_true_iff in Hc. simpl. rewrite Hc, IH by assumption.
  now rewrite <- app_assoc.
Qed.

Lemma split_from_spaces (sp cur : pystr) :
  all_space sp = true -> split_from cur sp = split_from cur [].
Proof.
  revert cur. induction sp as [|c sp IH]; intros cur Hsp; [reflexivity|].
  simpl in Hsp. apply andb_true_iff in Hsp as [Hc Hsp]. simpl. rewrite Hc.
  destruct cur; rewrite IH by assumption; reflexivity.
Qed.

Lemma split_from_trailing (s sp cur : pystr) :
  all_space sp = true -> split_from cur (s ++ sp) = split_from cur s.
Proof.
  intros Hsp. revert cur. induction s as [|c s IH]; intros cur.
  - now apply split_from_spaces.
  - simpl. destruct (isspace c); [destruct cur|]; now rewrite IH.
Qed.

Lemma lstrip_parts (s : pystr) :
  exists sp, all_space sp = true /\ s = sp ++ lstrip s
             /\ (lstrip s = [] \/ exists c t, lstrip s = c :: t /\ isspace c = false).
Proof.
  induction s as [|c s (sp & Hsp & Hs & Hhead)].
  - exists []. auto.
  - simpl. destruct (isspace c) eqn:Hc.
    + exists (c :: sp). simpl. rewrite Hc, Hsp. split; [reflexivity|].
      split; [now f_equal|exact Hhead].
    + exists []. split; [reflexivity|]. split; [reflexivity|]. right. eauto.
Qed.

Lemma split_lstrip (s : pystr) : split (lstrip s) = split s.
Proof.
  unfold split. induction s as [|c s IH]; [reflexivity|].
  simpl. destruct (isspace c) eqn:Hc; [exact IH|]. simpl. now rewrite Hc.
Qed.

Lemma rstrip_parts (s : pystr) :
  exists sp, all_space sp = true /\ s = rstrip s ++ sp.
Proof.
  destruct (lstrip_parts (rev s)) as (sp & Hsp & Hs & _).
  exists (rev sp). split; [now rewrite all_space_rev|].
  unfold rstrip. rewrite <- rev_app_distr, <- Hs. now rewrite rev_involutive.
Qed.

Lemma split_rstrip (s : pystr) : split (rstrip s) = split s.
Proof.
  destruct (rstrip_parts s) as (sp & Hsp & Hs). unfold split.
  rewrite Hs at 2. now rewrite split_from_trailing.
Qed.

(** [strip] before [split] changes nothing. *)
Lemma split_strip (s : pystr) : split (strip s) = split s.
Proof. unfold strip. now rewrite split_rstrip, split_lstrip. Qed.

Lemma split_from_pending (s cur : pystr) :
  cur <> [] -> split_from cur s <> [].
Proof.
  revert cur. induction s as [|c s IH]; intros cur Hcur; simpl.
  - destruct cur; [congruence|discriminate].
  - destruct (isspace c); [destruct cur; [congruence|discriminate]|].
    apply IH. discriminate.
Qed.

Lemma split_all_space (s : pystr) : split s = [] <-> all_space s = true.
Proof.
  unfold split. split.
  - induction s as [|c s IH]; [reflexivity|]. simpl.
    destruct (isspace c) eqn:Hc; [exact IH|].
    intros H. now apply split_from_pending in H.
  - intros H. now rewrite split_from_spaces.
Qed.

Lemma lstrip_all_space (s : pystr) : lstrip s = [] <-> all_space s = true.
Proof.
  induction s as [|c s IH]; [easy|]. simpl.
  destruct (isspace c); [exact IH|]. split; discriminate.
Qed.

Lemma all_space_lstrip (s : pystr) : all_space (lstrip s) = all_space s.
Proof.
  induction s as [|c s IH]; [reflexivity|]. simpl.
  destruct (isspace c) eqn:Hc; [exact IH|]. simpl. now rewrite Hc.
Qed.

Lemma strip_all_space (s : pystr) : strip s = [] <-> all_space s = true.
Proof.
  unfold strip, rstrip. rewrite <- all_space_lstrip, <- (all_space_rev (lstrip s)).
  rewrite <- lstrip_all_space. split.
  - intros H. apply (f_equal (@rev N)) in H. now rewrite rev_involutive in H.
  - intros ->. reflexivity.
Qed.

Lemma word_head (w : pystr) :
  is_word w -> exists c t, w = c :: t /\ isspace c = false.
Proof.
  intros [Hne Hw]. destruct w as [|c t]; [congruence|]. exists c, t.
  simpl in Hw. apply andb_true_iff in Hw as [Hc _].
  now apply negb_true_iff in Hc.
Qed.

Lemma word_last (w : pystr) :
  is_word w -> exists t c, w = t ++ [c] /\ isspace c = false.
Proof.
  intros [Hne Hw]. destruct (exists_last Hne) as (t & c & ->). exists t, c.
  split; [reflexivity|]. unfold no_space in Hw. rewrite forallb_app in Hw.
  apply andb_true_iff in Hw as [_ Hc]. simpl in Hc. rewrite andb_true_r in Hc.
  now apply negb_true_iff in Hc.
Qed.

Lemma join_words_head (ws : list pystr) :
  List.Forall is_word ws ->
  ws = [] \/ exists c t, join (py " ") ws = c :: t /\ isspace c = false.
Proof.
  intros [|w rest Hw _]; [now left|]. right.
  destruct (word_head w Hw) as (c & t & -> & Hc).
  destruct rest; simpl; eauto.
Qed.

Lemma join_words_last (ws : list pystr) :
  List.Forall is_word ws ->
  ws = [] \/ exists t c, join (py " ") ws = t ++ [c] /\ isspace c = false.
Proof.
  induction ws as [|w rest IH]; [now left|]. intros Hws. right.
  inversion Hws as [|? ? Hw Hrest]; subst.
  destruct rest as [|w' rest].
  - simpl. now apply word_last.
  - destruct (IH Hrest) as [H|(t & c & Ht & Hc)]; [discriminate|].
    exists (w ++ py " " ++ t), c. split; [|exact Hc].
    rewrite join_cons by discriminate. rewrite Ht. now rewrite <- !app_assoc.
Qed.

Lemma join_words_nil (ws : list pystr) :
  List.Forall is_word ws -> join (py " ") ws = [] <-> ws = [].
Proof.
  intros Hws. split; [|now intros ->].
  destruct (join_words_head ws Hws) as [H|(c & t & H & _)]; [easy|].
  rewrite H. discriminate.
Qed.

(** White space in a join of words is the separator. *)
Lemma join_words_spaces (ws : list pystr) (c : N) :
  List.Forall is_word ws ->
  In c (join (py " ") ws) -> isspace c = true -> c = 32%N.
Proof.
  induction ws as [|w rest IH]; [intros _ []|]. intros Hws Hin Hc.
  inversion Hws as [|? ? Hw Hrest]; subst.
  assert (Hw' : In c w -> False).
  { intros H. destruct Hw as [_ Hns]. unfold no_space in Hns.
    rewrite forallb_forall in Hns. apply Hns in H. rewrite Hc in H. discriminate. }
  destruct rest as [|w' rest]; [simpl in Hin; tauto|].
  rewrite join_cons in Hin by discriminate.
  apply in_app_or in Hin as [H|H]; [tauto|].
  apply in_app_or in H as [H|H]; [|now apply IH].
  destruct H as [H|[]]. now subst.
Qed.

Lemma lstrip_head (c : N) (t : pystr) :
  isspace c = false -> lstrip (c :: t) = c :: t.
Proof. intros H. simpl. now rewrite H. Qed.

Lemma rstrip_last (t : pystr) (c : N) :
  isspace c = false -> rstrip (t ++ [c]) = t ++ [c].
Proof.
  intros H. unfold rstrip. rewrite rev_app_distr. simpl. rewrite H.
  simpl. now rewrite rev_involutive.
Qed.

Lemma strip_join_words (ws : list pystr) :
  List.Forall is_word ws -> strip (join (py " ") ws) = join (py " ") ws.
Proof.
  intros Hws. unfold strip.
  destruct (join_words_head ws Hws) as [->|(c & t & Hj & Hc)]; [reflexivity|].
  rewrite Hj, lstrip_head, <- Hj by assumption.
  destruct (join_words_last ws Hws) as [->|(t' & c' & Hj' & Hc')]; [reflexivity|].
  rewrite Hj'. now apply rstrip_last.
Qed.

Lemma split_join_words (ws : list pystr) :
  List.Forall is_word ws -> split (join (py " ") ws) = ws.
Proof.
  unfold split. induction ws as [|w rest IH]; [reflexivity|]. intros Hws.
  inversion Hws as [|? ? Hw Hrest]; subst. destruct Hw as [Hne Hns].
  destruct rest as [|w' rest].
  - simpl. pose proof (split_from_word w [] [] Hns) as H.
    rewrite !app_nil_r in H. rewrite H. simpl.
    destruct (rev w) eqn:Hr; [|now rewrite <- Hr, rev_involutive].
    apply (f_equal (@rev N)) in Hr. rewrite rev_involutive in Hr. now subst.
  - rewrite join_cons by discriminate. rewrite split_from_word by assumption.
    rewrite app_nil_r. change (py " ") with [32%N]. cbn [app split_from].
    change (isspace 32) with true. cbv iota.
    destruct (rev w) eqn:Hr.
    + apply (f_equal (@rev N)) in Hr. rewrite rev_involutive in Hr. now subst.
    + rewrite <- Hr, rev_involutive. f_equal. now apply IH.
Qed.

Lemma contains_skip_word (w s : pystr) :
  no_space w = true ->
  contains [32; 32]%N (w ++ s) = contains [32; 32]%N s.
Proof.
  induction w as [|c w IH]; intros Hw; [reflexivity|].
  simpl in Hw. apply andb_true_iff in Hw as [Hc Hw].
  cbn [app contains startswith]. rewrite IH by assumption.
  destruct (N.eqb_spec 32 c) as [<-|Hne]; [discriminate|reflexivity].
Qed.

(** A join of words has no two spaces in a row. *)
Lemma join_words_single_spaces (ws : list pystr) :
  List.Forall is_word ws -> contains (py "  ") (join (py " ") ws) = false.
Proof.
  change (py "  ") with [32; 32]%N.
  induction ws as [|w rest IH]; [reflexivity|]. intros Hws.
  inversion Hws as [|? ? Hw Hrest]; subst. destruct Hw as [Hne Hns].
  destruct rest as [|w' rest].
  - simpl. pose proof (contains_skip_word w [] Hns) as H.
    rewrite app_nil_r in H. now rewrite H.
  - rewrite join_cons by discriminate. rewrite contains_skip_word by assumption.
    pose proof (IH Hrest) as IH'.
    destruct (join_words_head _ Hrest) as [H|(c & t & Hj & Hc)]; [discriminate|].
    change (py " ") with [32%N] in *. cbn [app contains startswith].
    rewrite IH', orb_false_r, Hj. cbn [startswith]. rewrite N.eqb_refl.
    destruct (N.eqb_spec 32 c) as [<-|]; [discriminate|reflexivity].
Qed.

(** The cleaning of eSpeak's output: [strip], [split], [join].  The
    [strip] is redundant, and cleaning twice is cleaning once. *)
Theorem cleaning_is_idempotent (out : pystr) :
  join (py " ") (split (strip out)) = join (py " ") (split out)
  /\ join (py " ")
       (split (strip (join (py " ") (split (strip out)))))
     = join (py " ") (split (strip out))
  /\ (join (py " ") (split (strip out)) = [] <-> strip out = []).
Proof.
  assert (Hws : List.Forall is_word (split out))
    by (apply split_from_words; reflexivity).
  rewrite !split_strip. split; [reflexivity|]. split.
  - now rewrite split_join_words.
  - rewrite join_words_nil by assumption.
    now rewrite split_all_space, strip_all_space.
Qed.

(** A phoneme string that comes from eSpeak is never empty, has no
    white space at either end and none inside but single spaces. *)
Theorem espeak_phonemes_are_normalised (E : Env) (self : PatchedEspeakBackend)
    (text : pystr) (w : World) (phonemes : pystr) (w' : World) :
  phonemize_text E self text w = (Ret (BundledEspeak, phonemes), w') ->
  phonemes <> []
  /\ strip phonemes = phonemes
  /\ (forall c, In c phonemes -> isspace c = true -> c = 32%N)
  /\ contains (py "  ") phonemes = false.
Proof.
  intros Hrun.
  destruct (phonemize_text_run E self text w) as (w1 & Hrun1 & _).
  rewrite Hrun1 in Hrun. injection Hrun as Hres _.
  unfold phonemes_for, espeak_succeeds, espeak_phonemes in Hres.
  destruct (child E _) as [d rc out| |e]; try discriminate.
  destruct ((d <=? seconds 30)%N && (rc =? 0) && truthy (strip out)) eqn:Hok;
    [|discriminate].
  injection Hres as <-.
  apply andb_true_iff in Hok as [_ Htruthy].
  assert (Hws : List.Forall is_word (split (strip out)))
    by (apply split_from_words; reflexivity).
  split; [|split; [|split]].
  - rewrite join_words_nil by assumption. rewrite split_strip, split_all_space.
    rewrite <- strip_all_space. destruct (strip out); [discriminate|discriminate].
  - now apply strip_join_words.
  - intros c. now apply join_words_spaces.
  - now apply join_words_single_spaces.
Qed.

Lemma espeak_phonemes_are_normalised_witness :
  py "h@l'oU w3:ld" <> []
  /\ strip (py "h@l'oU w3:ld") = py "h@l'oU w3:ld".
Proof.
  destruct (espeak_phonemes_are_normalised Sample.env Sample.backend
              (py "hello world") Sample.world (py "h@l'oU w3:ld")
              (snd (phonemize_text Sample.env Sample.backend (py "hello world")
                      Sample.world))) as (H1 & H2 & _).
  - vm_compute. reflexivity.
  - split; assumption.
Defined.

(** ** The character table: length and fixed points *)

Lemma replace_from_length (old : pystr) (z : N) (s : pystr) (k : nat) :
  (length (replace_from old [z] k s) <= length s)%nat.
Proof.
  revert k. induction s as [|c s IH]; intros k; simpl; [lia|].
  destruct k as [|k]; [|specialize (IH k); lia].
  destruct (startswith old (c :: s)); simpl.
  - specialize (IH (length old - 1)%nat). lia.
  - specialize (IH 0%nat). lia.
Qed.

Lemma replace_from_absent (old new s : pystr) :
  contains old s = false -> replace_from old new 0 s = s.
Proof.
  induction s as [|c s IH]; intros H; [reflexivity|].
  cbn [contains] in H. apply orb_false_iff in H as [Hhead Hrest].
  cbn [replace_from]. rewrite Hhead. f_equal. now apply IH.
Qed.

(** The substitution never makes the text longer, and it leaves alone a
    text in which none of the nine keys occurs. *)
Theorem basic_ipa_length_and_fixed_points (E : Env) (text : pystr) :
  (length (_text_to_basic_ipa E text) <= length (str_lower E text))%nat
  /\ (List.Forall (fun entry => contains (fst entry) (str_lower E text) = false)
                  basic_map ->
      _text_to_basic_ipa E text = str_lower E text).
Proof.
  rewrite basic_ipa_unfold. unfold substitute_in_order. eval_py.
  unfold replace. cbv zeta. split.
  - repeat (etransitivity; [apply replace_from_length|]). reflexivity.
  - intros H. unfold basic_map in H. eval_py_in H.
    repeat (apply Forall_cons_iff in H as [?H H]). cbn [fst] in *.
    repeat match goal with
           | H : contains ?o ?s = false |- context [replace_from ?o ?n 0 ?s] =>
             rewrite (replace_from_absent o n s H)
           end.
    reflexivity.
Qed.

Lemma basic_ipa_length_and_fixed_points_witness :
  _text_to_basic_ipa Sample.env (py "XYZ 123!") = py "xyz 123!".
Proof.
  destruct (basic_ipa_length_and_fixed_points Sample.env (py "XYZ 123!"))
    as (_ & H).
  rewrite H; [vm_compute; reflexivity|]. vm_compute. repeat constructor.
Defined.

(** ** Dicts as [_success] merges them *)

Lemma dict_get_set (k k' : pystr) (v : json) (d : list (pystr * json)) :
  dict_get k (dict_set k' v d)
  = if pystr_eqb k k' then Some v else dict_get k d.
Proof.
  induction d as [|[k0 v0] d IH]; simpl.
  - reflexivity.
  - destruct (pystr_eqb k' k0) eqn:H0; simpl.
    + apply pystr_eqb_eq in H0 as <-. now destruct (pystr_eqb k k').
    + rewrite IH. destruct (pystr_eqb k k0) eqn:H1; [|reflexivity].
      apply pystr_eqb_eq in H1 as <-.
      destruct (pystr_eqb k k') eqn:H2; [|reflexivity].
      apply pystr_eqb_eq in H2 as <-.
      rewrite (proj2 (pystr_eqb_eq k k) eq_refl) in H0. discriminate.
Qed.

Lemma dict_get_app (k : pystr) (a b : list (pystr * json)) :
  dict_get k (a ++ b)
  = match dict_get k a with Some v => Some v | None => dict_get k b end.
Proof.
  induction a as [|[k0 v0] a IH]; [reflexivity|]. simpl.
  now destruct (pystr_eqb k k0).
Qed.

(** A key of [{**a, **b}] has its last value in [b], or else its value
    in [a]. *)
Lemma dict_get_merge (k : pystr) (b a : list (pystr * json)) :
  dict_get k (dict_merge a b)
  = match dict_get k (rev b) with
    | Some v => Some v
    | None => dict_get k a
    end.
Proof.
  unfold dict_merge. revert a. induction b as [|[k1 v1] b IH]; intros a.
  - reflexivity.
  - cbn [fold_left fst snd rev]. rewrite IH, dict_get_app, dict_get_set.
    destruct (dict_get k (rev b)); [reflexivity|]. simpl.
    now destruct (pystr_eqb k k1).
Qed.

Lemma dict_set_head (k k0 : pystr) (v v0 : json) (d : list (pystr * json)) :
  exists v' d', dict_set k v ((k0, v0) :: d) = (k0, v') :: d'.
Proof.
  simpl. destruct (pystr_eqb k k0) eqn:H; [|eauto].
  apply pystr_eqb_eq in H as ->. eauto.
Qed.

Lemma dict_merge_head (k0 : pystr) (v0 : json) (b a : list (pystr * json)) :
  exists v' d', dict_merge ((k0, v0) :: a) b = (k0, v') :: d'.
Proof.
  unfold dict_merge. revert v0 a. induction b as [|[k1 v1] b IH]; intros v0 a.
  - simpl. eauto.
  - cbn [fold_left fst snd].
    destruct (dict_set_head k1 k0 v1 v0 a) as (v' & d' & ->). apply IH.
Qed.

Lemma dict_get_rev_none (k : pystr) (d : list (pystr * json)) :
  dict_get k (rev d) = None <-> ~ In k (List.map fst d).
Proof.
  assert (H : forall l, dict_get k l = None <-> ~ In k (List.map fst l)).
  { induction l as [|[k0 v0] l IH]; simpl; [tauto|].
    destruct (pystr_eqb k k0) eqn:H0.
    - apply pystr_eqb_eq in H0 as ->. split; [discriminate|tauto].
    - rewrite IH. split; [|tauto]. intros Hn [->|Hin]; [|tauto].
      rewrite (proj2 (pystr_eqb_eq k k) eq_refl) in H0. discriminate. }
  rewrite H, map_rev, <- in_rev. reflexivity.
Qed.

(** [_success(data)] prints one JSON object whose first key is
    [success].  The flag is [true] unless [data] has a [success] key of
    its own, which then wins; every other key of [data] is there with its
    (last) value, and nothing else is. *)
Theorem success_merges_data (data : list (pystr * json)) (w : World) :
  exists flag fields,
    _success data w
    = (Ret tt, print_stdout (Json (JObj ((py "success", flag) :: fields))) w)
    /\ flag = match dict_get (py "success") (rev data) with
              | Some v => v
              | None => JBool true
              end
    /\ (forall k, k <> py "success" ->
                  dict_get k ((py "success", flag) :: fields)
                  = dict_get k (rev data))
    /\ (~ In (py "success") (List.map fst data) ->
        success_report (JObj ((py "success", flag) :: fields))).
Proof.
  unfold _success, print_out.
  destruct (dict_merge_head (py "success") (JBool true) data [])
    as (flag & fields & Hm).
  exists flag, fields. split; [now rewrite Hm|].
  assert (Hget : forall k, dict_get k ((py "success", flag) :: fields)
                           = match dict_get k (rev data) with
                             | Some v => Some v
                             | None => dict_get k [(py "success", JBool true)]
                             end)
    by (intros k; rewrite <- Hm; apply dict_get_merge).
  assert (Hflag : flag = match dict_get (py "success") (rev data) with
                         | Some v => v
                         | None => JBool true
                         end).
  { specialize (Hget (py "success")).
    cbn [dict_get] in Hget.
    rewrite (proj2 (pystr_eqb_eq (py "success") (py "success")) eq_refl) in Hget.
    destruct (dict_get (py "success") (rev data)); now injection Hget. }
  split; [exact Hflag|]. split.
  - intros k Hk. rewrite Hget.
    destruct (dict_get k (rev data)); [reflexivity|]. cbn [dict_get].
    destruct (pystr_eqb k (py "success")) eqn:H; [|reflexivity].
    apply pystr_eqb_eq in H. congruence.
  - intros Hno. apply dict_get_rev_none in Hno. rewrite Hno in Hflag. subst flag.
    eexists. split; [reflexivity|]. cbn [dict_get].
    now rewrite (proj2 (pystr_eqb_eq (py "success") (py "success")) eq_refl).
Qed.

Lemma success_merges_data_witness :
  exists flag fields,
    _success [(py "voices", JList [])] Sample.world
    = (Ret tt, print_stdout (Json (JObj ((py "success", flag) :: fields)))
                 Sample.world)
    /\ success_report (JObj ((py "success", flag) :: fields)).
Proof.
  destruct (success_merges_data [(py "voices", JList [])] Sample.world)
    as (flag & fields & Hrun & _ & _ & H).
  exists flag, fields. split; [exact Hrun|].
  apply H. vm_compute. intuition discriminate.
Defined.

Example success_flag_can_be_overridden :
  fst (_success [(py "success", JBool false)] Sample.world) = Ret tt
  /\ w_stdout (snd (_success [(py "success", JBool false)] Sample.world))
     = [Json (JObj [(py "success", JBool false)])].
Proof. split; vm_compute; reflexivity. Qed.

(** ** More on [generate_audio] *)

Lemma generate_audio_self (E : Env) (self : CarelessKittenBridge)
    (text voice : pystr) (speed : spec_float) (output_path : pystr) (w : World) :
  exists ok w',
    generate_audio E self text voice speed output_path w
    = (Ret (ok, bridge_after E self), w').
Proof.
  unfold generate_audio, bridge_after, initialize_model, KittenTTS.
  destruct (model self) eqn:Hm.
  - unfold bind at 1, ret at 1. cbn [negb].
    destruct (generate_audio_outcome E self text voice speed output_path w)
      as (ok & self' & w' & Hrun & _ & _).
    unfold generate_audio in Hrun. rewrite Hm in Hrun.
    unfold bind at 1, ret at 1 in Hrun. cbn [negb] in Hrun.
    unfold try_except in *.
    destruct (voice_in voice (supported_voices self)); cbn [negb] in *;
      [|eexists _, _; reflexivity].
    destruct (speed_in_range speed); cbn [negb] in *;
      [|eexists _, _; reflexivity].
    unfold bind at 1, model_generate_to_file.
    destruct (generate_to_file E _ _) as [[e|] fs]; [eexists _, _; reflexivity|].
    unfold bind at 1, path_exists. case_bool_decide; cbn [negb];
      [|eexists _, _; reflexivity].
    unfold bind at 1, path_getsize.
    destruct (w_files _ !! output_path); [|eexists _, _; reflexivity].
    destruct (_ =? 0); eexists _, _; reflexivity.
  - unfold try_except at 1, bind at 1, bind at 1.
    destruct (kitten_init E _) as [e|]; [eexists _, _; reflexivity|].
    unfold ret at 1, ret at 1. cbn [negb]. unfold try_except. cbn [supported_voices].
    destruct (voice_in voice (supported_voices self)); cbn [negb];
      [|eexists _, _; reflexivity].
    destruct (speed_in_range speed); cbn [negb];
      [|eexists _, _; reflexivity].
    unfold bind at 1, model_generate_to_file.
    destruct (generate_to_file E _ _) as [[e|] fs]; [eexists _, _; reflexivity|].
    unfold bind at 1, path_exists. case_bool_decide; cbn [negb];
      [|eexists _, _; reflexivity].
    unfold bind at 1, path_getsize.
    destruct (w_files _ !! output_path); [|eexists _, _; reflexivity].
    destruct (_ =? 0); eexists _, _; reflexivity.
Qed.

Lemma generate_audio_full (E : Env) (self : CarelessKittenBridge)
    (text voice : pystr) (speed : spec_float) (output_path : pystr) (w : World) :
  exists ok w',
    generate_audio E self text voice speed output_path w
    = (Ret (ok, bridge_after E self), w')
    /\ audio_outcome E self text voice speed output_path w ok w'.
Proof.
  destruct (generate_audio_self E self text voice speed output_path w)
    as (ok & w' & Hrun).
  destruct (generate_audio_outcome E self text voice speed output_path w)
    as (ok' & self' & w'' & Hrun' & _ & Hout).
  rewrite Hrun in Hrun'. injection Hrun' as <- _ <-. eauto.
Qed.

(** A speed that passes the check is a finite positive number: NaN,
    infinities, zeros and negative numbers do not pass. *)
Lemma speed_in_range_finite (speed : spec_float) :
  speed_in_range speed = true -> exists m e, speed = S754_finite false m e.
Proof.
  unfold speed_in_range, SFleb, SFcompare, float_0_5, float_2_0.
  destruct speed as [[|]|[|]| |[|] m e]; cbv beta iota;
    try discriminate; eauto.
Qed.

(** The model is loaded before the arguments are looked at.  With no
    model yet and a constructor that raises, the call fails with the
    constructor's message whatever the voice and the speed, and [self]
    stays without a model; otherwise [self] has a model afterwards, also
    when the call fails later. *)
Theorem model_is_loaded_first (E : Env) (self : CarelessKittenBridge)
    (text voice : pystr) (speed : spec_float) (output_path : pystr) (w : World) :
  (forall e,
     model self = None ->
     kitten_init E (py "KittenML/kitten-tts-nano-0.1") = Some e ->
     generate_audio E self text voice speed output_path w
     = (Ret (false, self),
        print_stderr (Json (error_report
          (py "Failed to initialize KittenTTS: " ++ exn_str e))) w))
  /\ (model self <> None
      \/ kitten_init E (py "KittenML/kitten-tts-nano-0.1") = None ->
      exists ok self' w',
        generate_audio E self text voice speed output_path w
        = (Ret (ok, self'), w')
        /\ model self' <> None
        /\ supported_voices self' = supported_voices self
        /\ (model self <> None -> self' = self)).
Proof.
  destruct (generate_audio_full E self text voice speed output_path w)
    as (ok & w' & Hrun & Hout).
  split.
  - intros e Hm Hk. unfold generate_audio, initialize_model, KittenTTS.
    rewrite Hm, Hk. reflexivity.
  - intros Hinit. exists ok, (bridge_after E self), w'. split; [exact Hrun|].
    unfold bridge_after. destruct (model self) eqn:Hm.
    + rewrite Hm. repeat split; congruence.
    + destruct Hinit as [H|H]; [congruence|]. rewrite H. simpl.
      repeat split; congruence.
Qed.

(** An unsupported voice is refused before the speed is looked at and
    before the model is called: the call fails, the message names the
    voice and lists the supported ones, and nothing else happens. *)
Theorem unsupported_voice_is_rejected (E : Env) (self : CarelessKittenBridge)
    (text voice : pystr) (speed : spec_float) (output_path : pystr) (w : World) :
  model self <> None
  \/ kitten_init E (py "KittenML/kitten-tts-nano-0.1") = None ->
  voice_in voice (supported_voices self) = false ->
  exists self',
    generate_audio E self text voice speed output_path w
    = (Ret (false, self'),
       print_stderr (Json (error_report
         (py "Unsupported voice: " ++ voice ++ py ". Supported: "
          ++ join (py ", ") (supported_voices self)))) w).
Proof.
  intros Hinit Hvoice.
  destruct (generate_audio_full E self text voice speed output_path w)
    as (ok & w' & Hrun & Hout).
  exists (bridge_after E self). rewrite Hrun.
  destruct Hout; try congruence. destruct Hinit; congruence.
Qed.

Lemma unsupported_voice_is_rejected_witness :
  w_stderr (snd (generate_audio Sample.env new_bridge (py "hello")
                   (py "expr-voice-9-x") Sample.float_3_0 (py "out.wav")
                   Sample.world))
  = [Json (error_report
       (py "Unsupported voice: expr-voice-9-x. Supported: expr-voice-2-m, expr-voice-2-f, expr-voice-3-m, expr-voice-3-f, expr-voice-4-m, expr-voice-4-f, expr-voice-5-m, expr-voice-5-f"))].
Proof.
  destruct (unsupported_voice_is_rejected Sample.env new_bridge (py "hello")
              (py "expr-voice-9-x") Sample.float_3_0 (py "out.wav") Sample.world)
    as (self' & Hrun).
  - right. reflexivity.
  - vm_compute. reflexivity.
  - rewrite Hrun. vm_compute. reflexivity.
Defined.

(** [generate_audio] calls the model at most once, and only with a
    supported voice and a finite speed in the range, passing its four
    arguments on as they are.  It changes no file itself: the files
    afterwards are the ones the model left, or the old ones when the
    model was not called. *)
Theorem model_gets_validated_arguments (E : Env) (self : CarelessKittenBridge)
    (text voice : pystr) (speed : spec_float) (output_path : pystr) (w : World) :
  exists ok self' w',
    generate_audio E self text voice speed output_path w = (Ret (ok, self'), w')
    /\ (w_generated w' = w_generated w /\ w_files w' = w_files w /\ ok = false
        \/ w_generated w'
           = w_generated w
             ++ [{| gc_text := text; gc_output_path := output_path;
                    gc_voice := voice; gc_speed := speed |}]
           /\ w_files w'
              = snd (generate_to_file E
                       {| gc_text := text; gc_output_path := output_path;
                          gc_voice := voice; gc_speed := speed |} (w_files w))
           /\ voice_in voice (supported_voices self) = true
           /\ SFleb float_0_5 speed = true /\ SFleb speed float_2_0 = true
           /\ exists m e, speed = S754_finite false m e).
Proof.
  destruct (generate_audio_full E self text voice speed output_path w)
    as (ok & w' & Hrun & Hout).
  exists ok, (bridge_after E self), w'. split; [exact Hrun|].
  assert (Hrange : speed_in_range speed = true ->
                   SFleb float_0_5 speed = true /\ SFleb speed float_2_0 = true
                   /\ exists m e, speed = S754_finite false m e).
  { intros H. pose proof (speed_in_range_finite speed H) as Hfin.
    unfold speed_in_range in H. apply andb_true_iff in H as [? ?]. auto. }
  destruct Hout; cbn [w_generated w_files print_stderr print_stdout log_generate];
    try (left; auto; fail); right; fold (call_of text voice speed output_path);
    match goal with
    | H : generate_to_file _ _ _ = _ |- _ => rewrite H
    end; auto.
Qed.

(** The check of the output does not tell a new file from an old one:
    when the model returns without writing and a non-empty file was
    already at [output_path], the call succeeds and reports the size of
    the old file. *)
Theorem stale_output_passes_verification (E : Env) (self : CarelessKittenBridge)
    (text voice : pystr) (speed : spec_float) (output_path : pystr) (w : World)
    (size : N) :
  model self <> None
  \/ kitten_init E (py "KittenML/kitten-tts-nano-0.1") = None ->
  voice_in voice (supported_voices self) = true ->
  speed_in_range speed = true ->
  generate_to_file E
    {| gc_text := text; gc_output_path := output_path;
       gc_voice := voice; gc_speed := speed |} (w_files w)
  = (None, w_files w) ->
  w_files w !! output_path = Some size ->
  (0 < size)%N ->
  exists self' w',
    generate_audio E self text voice speed output_path w = (Ret (true, self'), w')
    /\ w_stdout w'
       = w_stdout w
         ++ [Json (audio_report output_path (Z.of_N size) voice speed text)]
    /\ w_files w' = w_files w.
Proof.
  intros Hinit Hvoice Hspeed Hgen Hfile Hsize.
  destruct (generate_audio_full E self text voice speed output_path w)
    as (ok & w' & Hrun & Hout).
  fold (call_of text voice speed output_path) in Hgen.
  destruct Hout; try congruence; try (destruct Hinit; congruence);
    match goal with
    | H : generate_to_file _ _ _ = (None, ?f) |- _ =>
      assert (f = w_files w) by congruence; subst f
    end;
    try congruence; try (assert (size = 0%N) by congruence; lia).
  match goal with
  | H : w_files w !! output_path = Some ?s, H' : (0 < ?s)%N |- _ =>
    assert (s = size) by congruence; subst s
  end.
  eexists _, _. split; [exact Hrun|]. split; reflexivity.
Qed.

Lemma stale_output_passes_verification_witness :
  exists self' w',
    generate_audio Sample.env_silent new_bridge (py "hello") (py "expr-voice-3-m")
      Sample.float_1_5 (py "python/espeak/espeak.exe") Sample.world
    = (Ret (true, self'), w')
    /\ w_files w' = w_files Sample.world.
Proof.
  destruct (stale_output_passes_verification Sample.env_silent new_bridge
              (py "hello") (py "expr-voice-3-m") Sample.float_1_5
              (py "python/espeak/espeak.exe") Sample.world 400000)
    as (self' & w' & Hrun & _ & Hfiles).
  - right. reflexivity.
  - vm_compute. reflexivity.
  - vm_compute. reflexivity.
  - reflexivity.
  - vm_compute. reflexivity.
  - reflexivity.
  - exists self', w'. auto.
Defined.

(** An exception of the model is reported with its text and makes the
    call fail, also when the model had written the output file before
    it raised; the file stays. *)
Theorem generation_error_is_reported (E : Env) (self : CarelessKittenBridge)
    (text voice : pystr) (speed : spec_float) (output_path : pystr) (w : World)
    (e : exn) (fs : gmap pystr N) :
  model self <> None
  \/ kitten_init E (py "KittenML/kitten-tts-nano-0.1") = None ->
  voice_in voice (supported_voices self) = true ->
  speed_in_range speed = true ->
  generate_to_file E
    {| gc_text := text; gc_output_path := output_path;
       gc_voice := voice; gc_speed := speed |} (w_files w)
  = (Some e, fs) ->
  exists self' w',
    generate_audio E self text voice speed output_path w = (Ret (false, self'), w')
    /\ w_stderr w'
       = w_stderr w
         ++ [Json (error_report (py "TTS generation failed: " ++ exn_str e))]
    /\ w_stdout w' = w_stdout w
    /\ w_files w' = fs.
Proof.
  intros Hinit Hvoice Hspeed Hgen.
  destruct (generate_audio_full E self text voice speed output_path w)
    as (ok & w' & Hrun & Hout).
  fold (call_of text voice speed output_path) in Hgen.
  destruct Hout; try congruence.
  - destruct Hinit; congruence.
  - match goal with
    | H : generate_to_file _ _ _ = (Some ?e', ?f) |- _ =>
      assert (e' = e) by congruence; assert (f = fs) by congruence; subst e' f
    end.
    eexists _, _. split; [exact Hrun|]. repeat split.
Qed.

Lemma model_is_loaded_first_witness :
  fst (generate_audio SampleRun.env_no_model new_bridge (py "hello")
         (py "expr-voice-9-x") Sample.float_3_0 (py "out.wav") Sample.world)
  = Ret (false, new_bridge)
  /\ exists ok self' w',
       generate_audio Sample.env new_bridge (py "hello")
         (py "expr-voice-9-x") Sample.float_3_0 (py "out.wav") Sample.world
       = (Ret (ok, self'), w')
       /\ model self' <> None.
Proof.
  split.
  - rewrite (proj1 (model_is_loaded_first SampleRun.env_no_model new_bridge
                      (py "hello") (py "expr-voice-9-x") Sample.float_3_0
                      (py "out.wav") Sample.world)
               (Exn OtherException (py "no weights")));
      reflexivity.
  - destruct (proj2 (model_is_loaded_first Sample.env new_bridge
                       (py "hello") (py "expr-voice-9-x") Sample.float_3_0
                       (py "out.wav") Sample.world))
      as (ok & self' & w' & Hrun & Hmodel & _).
    + right. reflexivity.
    + exists ok, self', w'. auto.
Defined.

Lemma generation_error_is_reported_witness :
  exists self' w',
    generate_audio SampleRun.env_failing new_bridge (py "hello")
      (py "expr-voice-3-m") Sample.float_1_5 (py "out.wav") Sample.world
    = (Ret (false, self'), w')
    /\ w_stderr w'
       = [Json (error_report (py "TTS generation failed: out of memory"))]
    /\ w_files w' !! py "out.wav" = Some 44%N.
Proof.
  destruct (generation_error_is_reported SampleRun.env_failing new_bridge
              (py "hello") (py "expr-voice-3-m") Sample.float_1_5
              (py "out.wav") Sample.world
              (Exn OtherException (py "out of memory"))
              (<[py "out.wav" := 44%N]> (w_files Sample.world)))
    as (self' & w' & Hrun & Herr & _ & Hfiles).
  - right. reflexivity.
  - vm_compute. reflexivity.
  - vm_compute. reflexivity.
  - reflexivity.
  - exists self', w'. split; [exact Hrun|]. split.
    + rewrite Herr. vm_compute. reflexivity.
    + rewrite Hfiles. apply lookup_insert_eq.
Defined.

(** ** More on [main] and the set-up *)

(** A failed import ends the run before the command line is read:
    whatever the arguments, also [--help] or a line argparse would
    refuse, the run prints the set-up error and exits with 1. *)
Theorem setup_failure_precedes_arguments (E : Env)
    (sys_modules : gmap string pyobj) (argv : list pystr) (w : World) (e : exn) :
  import_kittentts E = Some e ->
  script E sys_modules argv w
  = (Exit 1, print_stderr (Json (error_report (setup_message e))) w).
Proof.
  intros He.
  destruct (script_run E sys_modules argv w) as (r & w' & Hrun & Hout).
  rewrite Hrun. destruct Hout; congruence.
Qed.

Lemma setup_failure_precedes_arguments_witness :
  script SampleRun.env_no_kittentts ∅ [py "--help"] Sample.world
  = (Exit 1,
     print_stderr (Json (error_report
       (py "KittenTTS setup failed: No module named 'kittentts'. Ensure all dependencies are installed.")))
       Sample.world).
Proof.
  rewrite (setup_failure_precedes_arguments SampleRun.env_no_kittentts ∅
             [py "--help"] Sample.world
             (Exn ImportError (py "No module named 'kittentts'")));
    [vm_compute|]; reflexivity.
Defined.

(** [--list-voices] wins over everything else on the command line:
    the run prints the list and ends normally, whatever --text, --voice,
    --speed and --output are, without a call to the model. *)
Theorem list_voices_takes_precedence (E : Env)
    (sys_modules : gmap string pyobj) (argv : list pystr) (w : World)
    (ns : Namespace) :
  import_kittentts E = None ->
  parse_known E (main_parser E) argv = Parsed ns ->
  args_list_voices ns = true ->
  script E sys_modules argv w
  = (Ret tt, print_stdout (Json voices_report) w).
Proof.
  intros Himp Hparse Hlist.
  destruct (script_run E sys_modules argv w) as (r & w' & Hrun & Hout).
  rewrite Hrun. destruct Hout; congruence.
Qed.

Lemma list_voices_takes_precedence_witness :
  script Sample.env ∅
    [py "--voice"; py "nobody"; py "--list-voices"; py "--speed"; py "3.0"]
    Sample.world
  = (Ret tt, print_stdout (Json voices_report) Sample.world).
Proof.
  apply (list_voices_takes_precedence Sample.env ∅ _ Sample.world
           (set_speed Sample.float_3_0
              (set_list_voices (set_voice (py "nobody") defaults)))).
  - reflexivity.
  - vm_compute. reflexivity.
  - reflexivity.
Defined.

(** An empty string counts as a missing argument: when --text or
    --output is absent or empty the run prints the error about both
    being required and exits with 1, before the model is loaded. *)
Theorem empty_argument_counts_as_missing (E : Env)
    (sys_modules : gmap string pyobj) (argv : list pystr) (w : World)
    (ns : Namespace) :
  import_kittentts E = None ->
  parse_known E (main_parser E) argv = Parsed ns ->
  args_list_voices ns = false ->
  args_text ns = None \/ args_text ns = Some []
  \/ args_output ns = None \/ args_output ns = Some [] ->
  script E sys_modules argv w
  = (Exit 1,
     print_stderr (Json (error_report
       (py "Both --text and --output are required for TTS generation"))) w).
Proof.
  intros Himp Hparse Hlist Hmiss.
  destruct (script_run E sys_modules argv w) as (r & w' & Hrun & Hout).
  rewrite Hrun. destruct Hout; try congruence.
  exfalso.
  match goal with
  | H : parse_known _ _ _ = Parsed ?n |- _ =>
    assert (n = ns) by congruence; subst n
  end.
  destruct Hmiss as [Hm|[Hm|[Hm|Hm]]]; rewrite Hm in *; try discriminate;
    match goal with
    | H' : Some [] = Some ?t, H'' : truthy ?t = true |- _ =>
      injection H' as <-; discriminate
    end.
Qed.

Lemma empty_argument_counts_as_missing_witness :
  exit_status
    (fst (script Sample.env ∅ [py "--text"; []; py "--output"; py "out.wav"]
            Sample.world)) = Some 1.
Proof.
  rewrite (empty_argument_counts_as_missing Sample.env ∅ _ Sample.world
             (set_output (py "out.wav") (set_text [] defaults))).
  - reflexivity.
  - reflexivity.
  - vm_compute. reflexivity.
  - reflexivity.
  - right. left. reflexivity.
Defined.

(** A run calls the model at most once, and only for a command line
    that argparse accepts without --list-voices and with a text and an
    output path that are not empty; the call gets the parsed values as
    they are, with a voice and a speed that passed the checks. *)
Theorem script_calls_model_at_most_once (E : Env)
    (sys_modules : gmap string pyobj) (argv : list pystr) (w : World) :
  exists r w',
    script E sys_modules argv w = (r, w')
    /\ (w_generated w' = w_generated w /\ w_files w' = w_files w
        \/ exists ns text output,
             import_kittentts E = None
             /\ parse_known E (main_parser E) argv = Parsed ns
             /\ args_list_voices ns = false
             /\ args_text ns = Some text /\ text <> []
             /\ args_output ns = Some output /\ output <> []
             /\ voice_in (args_voice ns) (supported_voices new_bridge) = true
             /\ speed_in_range (args_speed ns) = true
             /\ w_generated w'
                = w_generated w
                  ++ [{| gc_text := text; gc_output_path := output;
                         gc_voice := args_voice ns;
                         gc_speed := args_speed ns |}]).
Proof.
  destruct (script_run E sys_modules argv w) as (r & w' & Hrun & Hout).
  exists r, w'. split; [exact Hrun|].
  destruct Hout; try (left; split; reflexivity).
  match goal with
  | H : audio_outcome _ _ _ _ _ _ _ _ _ |- _ =>
    destruct H; try (left; split; reflexivity)
  end;
    right; exists ns, text, output;
    repeat (split; [first [assumption | reflexivity
                          | intros ->; discriminate]|]);
    reflexivity.
Qed.

(** ** The replacement modules *)

(** The block writes seven entries of [sys.modules] and no other; what
    was there under these names is overwritten, so doing it twice is
    doing it once, and it does not matter what had been imported
    before. *)
Theorem patches_touch_seven_names (sys_modules : gmap string pyobj) :
  (forall name,
     ~ In name ["misaki"; "misaki.en"; "misaki.espeak"; "phonemizer";
                "phonemizer.backend"; "phonemizer.backend.espeak";
                "phonemizer.backend.EspeakBackend"] ->
     install_patches sys_modules !! name = sys_modules !! name)
  /\ (forall name,
        In name ["misaki"; "misaki.en"; "misaki.espeak"; "phonemizer";
                 "phonemizer.backend"; "phonemizer.backend.espeak";
                 "phonemizer.backend.EspeakBackend"] ->
        install_patches sys_modules !! name = install_patches ∅ !! name
        /\ is_Some (install_patches sys_modules !! name))
  /\ install_patches (install_patches sys_modules) = install_patches sys_modules.
Proof.
  assert (Hout : forall m name,
     ~ In name ["misaki"; "misaki.en"; "misaki.espeak"; "phonemizer";
                "phonemizer.backend"; "phonemizer.backend.espeak";
                "phonemizer.backend.EspeakBackend"] ->
     install_patches m !! name = m !! name).
  { intros m name Hn. unfold install_patches. cbv zeta.
    rewrite !lookup_insert_ne by (intros <-; apply Hn; simpl; tauto).
    reflexivity. }
  assert (Hin : forall m name,
     In name ["misaki"; "misaki.en"; "misaki.espeak"; "phonemizer";
              "phonemizer.backend"; "phonemizer.backend.espeak";
              "phonemizer.backend.EspeakBackend"] ->
     install_patches m !! name = install_patches ∅ !! name
     /\ is_Some (install_patches m !! name)).
  { intros m name Hn. unfold install_patches. cbv zeta. simpl in Hn.
    destruct Hn as [<-|[<-|[<-|[<-|[<-|[<-|[<-|[]]]]]]]];
      repeat (first [rewrite lookup_insert_eq
                    | rewrite lookup_insert_ne by discriminate]);
      (split; [reflexivity|eexists; reflexivity]). }
  split; [apply Hout|]. split; [apply Hin|].
  apply map_eq. intros name.
  destruct (In_dec string_dec name
              ["misaki"; "misaki.en"; "misaki.espeak"; "phonemizer";
               "phonemizer.backend"; "phonemizer.backend.espeak";
               "phonemizer.backend.EspeakBackend"]) as [Hn|Hn].
  - rewrite (proj1 (Hin (install_patches sys_modules) name Hn)).
    now rewrite (proj1 (Hin sys_modules name Hn)).
  - now rewrite (Hout (install_patches sys_modules) name Hn).
Qed.

Lemma patches_touch_seven_names_witness :
  install_patches {[ "json" := Object "json" ]} !! "json" = Some (Object "json")
  /\ install_patches {[ "misaki" := Object "the real misaki" ]} !! "misaki"
     = Some misaki_module.
Proof.
  destruct (patches_touch_seven_names {[ "json" := Object "json" ]})
    as (Hout & _).
  destruct (patches_touch_seven_names {[ "misaki" := Object "the real misaki" ]})
    as (_ & Hin & _).
  split.
  - rewrite Hout; [reflexivity|]. simpl. intuition discriminate.
  - rewrite (proj1 (Hin "misaki" (or_introl eq_refl))). reflexivity.
Defined.

(** After the block, [import misaki] and [import phonemizer] give the
    replacements whatever is installed, and a sub-module reached as an
    attribute is the object that [import] of its dotted name gives.  The
    exception is [phonemizer.backend.espeak]: it can be imported, but
    the replacement of [phonemizer.backend] has no attribute [espeak]. *)
Theorem replacement_modules_are_consistent (E : Env)
    (sys_modules : gmap string pyobj) :
  let m := install_patches sys_modules in
  import_module E m "misaki" = Some misaki_module
  /\ getattr misaki_module "en" = import_module E m "misaki.en"
  /\ getattr misaki_module "espeak" = import_module E m "misaki.espeak"
  /\ import_module E m "phonemizer" = Some phonemizer_module
  /\ getattr phonemizer_module "backend" = import_module E m "phonemizer.backend"
  /\ is_Some (import_module E m "phonemizer.backend.espeak")
  /\ getattr phonemizer_backend_module "espeak" = None.
Proof.
  cbv zeta. unfold import_module, install_patches. cbv zeta.
  repeat (first [rewrite lookup_insert_eq
                | rewrite lookup_insert_ne by discriminate]).
  repeat split. eexists; reflexivity.
Qed.

(** ** The command line of eSpeak *)

(** Every child process of [phonemize] is started with the executable
    of the backend, then [-q] and [--ipa], then [--path] and the data
    directory when that directory exists, and the text as the last
    argument, as it is: nothing separates it from the options, also when
    it begins with a dash.  The texts are taken in their order. *)
Theorem espeak_command_line (E : Env) (self : PatchedEspeakBackend)
    (text_list : TextArg) (w : World) :
  exists results w',
    phonemize E self text_list w = (Ret results, w')
    /\ List.map ra_cmd (drop (length (w_runs w)) (w_runs w'))
       = List.map
           (fun text =>
              [self_espeak_exe self; py "-q"; py "--ipa"]
              ++ (if bool_decide (is_Some (w_files w !! espeak_data E))
                  then [py "--path"; espeak_data E] else [])
              ++ [text])
           (as_text_list text_list)
    /\ take (length (w_runs w)) (w_runs w') = w_runs w.
Proof.
  destruct (phonemize_run E self text_list w)
    as (w' & H & _ & _ & _ & _ & Hr & _).
  eexists. exists w'. split; [exact H|]. rewrite Hr.
  rewrite drop_app_length, take_app_length. split; [|reflexivity].
  rewrite map_map. apply map_ext. intros t.
  unfold run_of, espeak_args, espeak_cmd. cbn [ra_cmd].
  now rewrite <- app_assoc.
Qed.
